(** * The Pixiv API client (api.py): session lifecycle and query layer

    A shallow embedding of the class [PixivApi] of [api.py].  Python values
    are an inductive type, raised exceptions are explicit results, and the
    object's attributes together with the outside world (the file
    [session], the terminal, the requests sent over HTTP) are threaded
    through a small state-and-exception monad.

    The JSON library, the HTTP transport and the terminal are the
    program's environment: the JSON codec and the transport are fields of
    the class [Env], the terminal is a list of typed lines. *)

From Stdlib Require Import String Ascii List ZArith Bool Lia.
Import ListNotations.
Open Scope string_scope.
Open Scope Z_scope.

Set Warnings "-register-all".

(** ** Python values *)

(** The values the program handles: what [json.loads] can return, plus the
    strings and numbers the program builds itself.  A float is identified by
    its [repr]; a [dict] (all keys are strings here) keeps insertion order. *)
Inductive pyval : Type :=
| PNone
| PBool (b : bool)
| PInt (z : Z)
| PFloat (repr : string)
| PStr (s : string)
| PList (l : list pyval)
| PDict (d : list (string * pyval)).

(** The exceptions that occur in [api.py]. *)
Inductive exn : Type :=
| KeyError (key : string)
| TypeError
| AttributeError
| JSONDecodeError
| FileNotFoundError
| EOFError
| TransportError (info : string)
| RuntimeError (args : list pyval)
| Pixiv_Get_Error (url : string)
| RecursionError
| SystemExit.

(** [SystemExit] derives from [BaseException], everything else here from
    [Exception]: an [except Exception] clause lets [SystemExit] through. *)
Definition is_Exception (e : exn) : bool :=
  match e with
  | SystemExit => false
  | _ => true
  end.

Inductive Res (A : Type) : Type :=
| Ok (a : A)
| Raise (e : exn).
Arguments Ok {A} a.
Arguments Raise {A} e.

(** Truth value of a Python object, as [if x:] and [not x] test it. *)
Definition truthy (v : pyval) : bool :=
  match v with
  | PNone => false
  | PBool b => b
  | PInt z => negb (z =? 0)
  | PFloat r => negb (String.eqb r "0.0" || String.eqb r "-0.0")
  | PStr s => negb (String.eqb s "")
  | PList l => match l with [] => false | _ => true end
  | PDict d => match d with [] => false | _ => true end
  end.

(** Dictionary lookup by key. *)
Fixpoint dict_get {A : Type} (d : list (string * A)) (k : string) : option A :=
  match d with
  | [] => None
  | (k', v) :: d' => if String.eqb k' k then Some v else dict_get d' k
  end.

(** [d[k] = v] on a dict: an existing key keeps its place. *)
Fixpoint dict_set {A : Type} (d : list (string * A)) (k : string) (v : A)
  : list (string * A) :=
  match d with
  | [] => [(k, v)]
  | (k', v') :: d' =>
      if String.eqb k' k then (k, v) :: d' else (k', v') :: dict_set d' k v
  end.

(** [d.update(e)]. *)
Definition dict_update {A : Type} (d e : list (string * A)) : list (string * A) :=
  fold_left (fun acc kv => dict_set acc (fst kv) (snd kv)) e d.

(** The subscription [v[k]] with a string key [k]: a [KeyError] on a dict
    without the key, a [TypeError] on every other kind of value. *)
Definition getitem (v : pyval) (k : string) : Res pyval :=
  match v with
  | PDict d =>
      match dict_get d k with
      | Some x => Ok x
      | None => Raise (KeyError k)
      end
  | _ => Raise TypeError
  end.

(** [v == s] for a string literal [s]. *)
Definition eq_str (v : pyval) (s : string) : bool :=
  match v with
  | PStr s' => String.eqb s' s
  | _ => false
  end.

(** Decimal digits of a natural number, as [str] prints an [int]. *)
Definition digit_of (n : nat) : ascii := ascii_of_nat (48 + n).

Fixpoint digits_fuel (fuel : nat) (n : N) (acc : string) : string :=
  match fuel with
  | O => acc
  | S fuel' =>
      let acc' := String (digit_of (N.to_nat (n mod 10))) acc in
      if (n / 10 =? 0)%N then acc' else digits_fuel fuel' (n / 10)%N acc'
  end.

Definition str_of_N (n : N) : string :=
  digits_fuel (S (N.to_nat (N.log2 n))) n "".

Definition str_of_Z (z : Z) : string :=
  match z with
  | Z0 => "0"
  | Zpos p => str_of_N (Npos p)
  | Zneg p => "-" ++ str_of_N (Npos p)
  end.

(** ** Strings *)

(** [sep.join(l)]. *)
Fixpoint join (sep : string) (l : list string) : string :=
  match l with
  | [] => ""
  | [x] => x
  | x :: l' => x ++ sep ++ join sep l'
  end.

(** [s.startswith(p)], returning what follows the prefix. *)
Fixpoint strip_prefix (p s : string) : option string :=
  match p, s with
  | EmptyString, _ => Some s
  | String a p', String b s' => if Ascii.eqb a b then strip_prefix p' s' else None
  | String _ _, EmptyString => None
  end.

(** ASCII lower case, for the case-insensitive header names of [requests]. *)
Definition lower_ascii (c : ascii) : ascii :=
  let n := nat_of_ascii c in
  if (Nat.leb 65 n && Nat.leb n 90)%bool then ascii_of_nat (n + 32) else c.

Fixpoint lower (s : string) : string :=
  match s with
  | EmptyString => EmptyString
  | String c s' => String (lower_ascii c) (lower s')
  end.

Definition newline : ascii := ascii_of_nat 10.
Definition semicolon : ascii := ";"%char.

(** The regular expression [(.*?);] matched at the start of [s]: the group
    is the text before the first [;], which [.] must reach without crossing
    a line feed. *)
Fixpoint lazy_group_semicolon (s : string) : option string :=
  match s with
  | EmptyString => None
  | String c s' =>
      if Ascii.eqb c semicolon then Some ""
      else if Ascii.eqb c newline then None
      else match lazy_group_semicolon s' with
           | Some g => Some (String c g)
           | None => None
           end
  end.

(** [re.search(r'PHPSESSID=(.*?);', s)], giving [group(1)] of the leftmost
    match, or [None] when the pattern matches nowhere. *)
Fixpoint re_search_PHPSESSID (s : string) : option string :=
  let here :=
    match strip_prefix "PHPSESSID=" s with
    | Some rest => lazy_group_semicolon rest
    | None => None
    end in
  match here with
  | Some g => Some g
  | None =>
      match s with
      | EmptyString => None
      | String _ s' => re_search_PHPSESSID s'
      end
  end.

(** ** The client object and its environment *)

(** [self.session]: the class default [''] or a [requests.Session()]. *)
Inductive transport_handle : Type :=
| NoSession
| Session.

(** The attributes of a [PixivApi] object that the methods assign. *)
Record PixivApi : Type := mkPixivApi {
  session_id : pyval;
  access_token : pyval;
  session : transport_handle;
  user_id : pyval;
  timeout : Z
}.

(** The class-level defaults. *)
Definition PixivApi_defaults : PixivApi :=
  {| session_id := PNone;
     access_token := PNone;
     session := NoSession;
     user_id := PStr "";
     timeout := 10 |}.

Definition User_Agent : string := "PixivIOSApp/5.8.3".
Definition image_sizes : string :=
  join "," ["px_128x128"; "px_480mw"; "small"; "medium"; "large"].
Definition profile_image_sizes : string :=
  join "," ["px_170x170"; "px_50x50"].

(** An outgoing HTTP request, as handed to [requests]. *)
Record request : Type := mkRequest {
  req_method : string;
  req_url : string;
  req_headers : list (string * string);
  req_params : option (list (string * pyval));
  req_data : option (list (string * pyval));
  req_timeout : Z
}.

(** The parts of a [requests.Response] the program reads. *)
Record response : Type := mkResponse {
  status_code : Z;
  text : string;
  headers : list (string * string);
  url : string
}.

(** [r.headers[name]]: header names compare without case. *)
Fixpoint header_get (h : list (string * string)) (name : string) : option string :=
  match h with
  | [] => None
  | (k, v) :: h' =>
      if String.eqb (lower k) (lower name) then Some v else header_get h' name
  end.

(** The world outside the object: the file [session] in the working
    directory ([None] when it does not exist), the requests sent so far, the
    lines still to be typed at the terminal and what was printed there. *)
Record World : Type := mkWorld {
  fs_session : option string;
  net_log : list request;
  tty_in : list string;
  tty_out : list string
}.

Record State : Type := mkState {
  self : PixivApi;
  world : World
}.

(** ** A state-and-exception monad *)

Definition M (A : Type) : Type := State -> Res A * State.

Definition ret {A : Type} (a : A) : M A := fun st => (Ok a, st).
Definition raise {A : Type} (e : exn) : M A := fun st => (Raise e, st).
Definition lift {A : Type} (r : Res A) : M A := fun st => (r, st).

Definition bind {A B : Type} (m : M A) (k : A -> M B) : M B :=
  fun st =>
    match m st with
    | (Ok a, st') => k a st'
    | (Raise e, st') => (Raise e, st')
    end.

Declare Scope py_scope.
Delimit Scope py_scope with py.
Notation "x <- m ;; k" := (bind m (fun x => k))
  (at level 61, m at next level, right associativity) : py_scope.
Notation "m ;; k" := (bind m (fun _ => k))
  (at level 61, right associativity) : py_scope.
Open Scope py_scope.

(** [try: body / except Exception as e: handler e]. *)
Definition try_except {A : Type} (body : M A) (handler : exn -> M A) : M A :=
  fun st =>
    match body st with
    | (Ok a, st') => (Ok a, st')
    | (Raise e, st') =>
        if is_Exception e then handler e st' else (Raise e, st')
    end.

(** [try: body / finally: return v]: the [return] in the [finally] clause
    discards whatever exception [body] raised, keeping its effects. *)
Definition finally_return {A B : Type} (body : M A) (v : B) : M B :=
  fun st => (Ok v, snd (body st)).

Definition get_self : M PixivApi := fun st => (Ok (self st), st).
Definition get_world : M World := fun st => (Ok (world st), st).
Definition put_self (o : PixivApi) : M unit :=
  fun st => (Ok tt, {| self := o; world := world st |}).
Definition put_world (w : World) : M unit :=
  fun st => (Ok tt, {| self := self st; world := w |}).

Definition set_session_id (v : pyval) : M unit :=
  o <- get_self ;;
  put_self {| session_id := v; access_token := access_token o;
              session := session o; user_id := user_id o;
              timeout := timeout o |}.

Definition set_access_token (v : pyval) : M unit :=
  o <- get_self ;;
  put_self {| session_id := session_id o; access_token := v;
              session := session o; user_id := user_id o;
              timeout := timeout o |}.

Definition set_session (h : transport_handle) : M unit :=
  o <- get_self ;;
  put_self {| session_id := session_id o; access_token := access_token o;
              session := h; user_id := user_id o;
              timeout := timeout o |}.

Definition set_user_id (v : pyval) : M unit :=
  o <- get_self ;;
  put_self {| session_id := session_id o; access_token := access_token o;
              session := session o; user_id := v;
              timeout := timeout o |}.

(** [set_timeout(self, timeout)]. *)
Definition set_timeout (t : Z) : M unit :=
  o <- get_self ;;
  put_self {| session_id := session_id o; access_token := access_token o;
              session := session o; user_id := user_id o;
              timeout := t |}.

(** [sys.stdout.write(s)]: one more piece of text on the terminal. *)
Definition write (s : string) : M unit :=
  w <- get_world ;;
  put_world {| fs_session := fs_session w; net_log := net_log w;
               tty_in := tty_in w; tty_out := tty_out w ++ [s] |}.

(** [print(s)] and [print(s, end="")]. *)
Definition print (s : string) : M unit := write (s ++ String newline "").
Definition print_noend (s : string) : M unit := write s.

(** [input(prompt)] and [getpass.getpass(prompt)]: show the prompt, take the
    next typed line; [EOFError] when there is none. *)
Definition input (prompt : string) : M string :=
  write prompt ;;
  w <- get_world ;;
  match tty_in w with
  | [] => raise EOFError
  | line :: rest =>
      put_world {| fs_session := fs_session w; net_log := net_log w;
                   tty_in := rest; tty_out := tty_out w |} ;;
      ret line
  end.

Definition getpass : string -> M string := input.

(** [os.path.exists('session')]. *)
Definition path_exists_session : M bool :=
  w <- get_world ;;
  ret (match fs_session w with Some _ => true | None => false end).

(** [open('session', 'r')] followed by reading the whole file. *)
Definition read_session_file : M string :=
  w <- get_world ;;
  match fs_session w with
  | Some content => ret content
  | None => raise FileNotFoundError
  end.

(** [open('session', 'w')] followed by writing [content]. *)
Definition write_session_file (content : string) : M unit :=
  w <- get_world ;;
  put_world {| fs_session := Some content; net_log := net_log w;
               tty_in := tty_in w; tty_out := tty_out w |}.

(** ** The environment of the program *)

(** What the program takes from its libraries and its interpreter. *)
Class Env : Type := {
  (** [json.loads], and [json.load] on the text of a file: [None] stands
      for an exception raised while reading or decoding. *)
  json_loads : string -> option pyval;
  (** [json.dumps]. *)
  json_dumps : pyval -> string;
  (** [str] of a list or dict, which is Python's [repr]. *)
  repr_container : pyval -> string;
  (** [str(e)] of an exception, as [print(e)] shows it. *)
  str_exn : exn -> string;
  (** The HTTP transport behind [requests]: the answer to a request, given
      the requests sent before it; it may raise. *)
  http : list request -> request -> Res response;
  (** How many nested calls of [login_required] the interpreter still
      allows before it raises [RecursionError]. *)
  recursion_limit : nat
}.

(** ** The methods of [PixivApi] *)

Section Client.

Context {env : Env}.

(** [str(v)], which is also ['{}'.format(v)]. *)
Definition py_str (v : pyval) : string :=
  match v with
  | PNone => "None"
  | PBool true => "True"
  | PBool false => "False"
  | PInt z => str_of_Z z
  | PFloat r => r
  | PStr s => s
  | PList _ | PDict _ => repr_container v
  end.

(** [session.get]/[session.post]: the request goes out and is answered. *)
Definition send (rq : request) : M response :=
  w <- get_world ;;
  put_world {| fs_session := fs_session w; net_log := net_log w ++ [rq];
               tty_in := tty_in w; tty_out := tty_out w |} ;;
  lift (http (net_log w) rq).

(** [load_session(self)].  The file is opened outside the [try]; decoding
    and the three assignments are inside it, and the [finally] clause
    returns [loaded_session] whatever happened. *)
Definition load_session : M pyval :=
  content <- read_session_file ;;
  match json_loads content with
  | None => finally_return (raise JSONDecodeError : M unit) PNone
  | Some loaded_session =>
      finally_return
        (a <- lift (getitem loaded_session "access_token") ;;
         set_access_token a ;;
         u <- lift (getitem loaded_session "user_id") ;;
         set_user_id u ;;
         s <- lift (getitem loaded_session "session_id") ;;
         set_session_id s)
        loaded_session
  end.

(** [save_session(self)]. *)
Definition session_data (o : PixivApi) : pyval :=
  PDict [("access_token", access_token o);
         ("user_id", user_id o);
         ("session_id", session_id o)].

Definition save_session : M unit :=
  o <- get_self ;;
  write_session_file (json_dumps (session_data o)).

(** The dict [pixiv_headers] that [_request_pixiv] builds. *)
Definition pixiv_headers (o : PixivApi)
    (headers : option (list (string * string))) : list (string * string) :=
  let pixiv_headers :=
    [("Referer", "http://www.pixiv.net/");
     ("User-Agent", User_Agent);
     ("Content-Type", "application/x-www-form-urlencoded")] in
  let pixiv_headers :=
    if truthy (access_token o)
    then dict_update pixiv_headers
           [("Authorization", "Bearer " ++ py_str (access_token o));
            ("Cookie", "PHPSESSID=" ++ py_str (session_id o))]
    else pixiv_headers in
  match headers with
  | Some h => match h with
              | [] => pixiv_headers
              | _ => dict_update pixiv_headers h
              end
  | None => pixiv_headers
  end.

(** [_request_pixiv(self, method, url, headers, params, data)]. *)
Definition _request_pixiv (method url : string)
    (headers : option (list (string * string)))
    (params data : option (list (string * pyval))) : M response :=
  o <- get_self ;;
  let pixiv_headers := pixiv_headers o headers in
  (match session o with
   | NoSession => set_session Session
   | Session => ret tt
   end) ;;
  o <- get_self ;;
  if String.eqb method "GET" then
    send {| req_method := "GET"; req_url := url;
            req_headers := pixiv_headers; req_params := params;
            req_data := None; req_timeout := timeout o |}
  else if String.eqb method "POST" then
    send {| req_method := "POST"; req_url := url;
            req_headers := pixiv_headers; req_params := params;
            req_data := data; req_timeout := timeout o |}
  else raise (RuntimeError [PStr "Unknown Method:"; PStr method]).

Definition ok_status (code : Z) : bool :=
  (code =? 200) || (code =? 301) || (code =? 302).

Definition probe_url : string :=
  "https://public-api.secure.pixiv.net/v1/ios_magazine_banner.json".

(** [check_expired(self)]. *)
Definition check_expired : M bool :=
  let url := probe_url in
  print_noend "Checking session" ;;
  r <- _request_pixiv "GET" url None None None ;;
  valid <-
    (if ok_status (status_code r) then
       try_except
         (respond <- match json_loads (text r) with
                     | Some v => ret v
                     | None => raise JSONDecodeError
                     end ;;
          status <- lift (getitem respond "status") ;;
          ret (eq_str status "success"))
         (fun e => print (str_exn e) ;; ret false)
     else ret false) ;;
  (if valid : bool then print " [VALID]"
   else print " [EXPIRED]" ;; set_access_token PNone) ;;
  ret valid.

(** The form [data] that [login] posts. *)
Definition login_data (username password : string) : list (string * pyval) :=
  [("username", PStr username);
   ("password", PStr password);
   ("grant_type", PStr "password");
   ("client_id", PStr "bYGKuGVw91e0NMfPGp44euvGt59s");
   ("client_secret", PStr "HP3RmkgAmEGro0gn1x9ioawQE8WMfvLXDz3ZqxpK")].

(** [login(self, username, password)].  The method has no [return]
    statement: its value is [None]. *)
Definition login (username password : string) : M pyval :=
  let url := "https://oauth.secure.pixiv.net/auth/token" in
  let data := login_data username password in
  r <- _request_pixiv "POST" url None None (Some data) ;;
  if ok_status (status_code r) then
    respond <- match json_loads (text r) with
               | Some v => ret v
               | None => raise JSONDecodeError
               end ;;
    resp <- lift (getitem respond "response") ;;
    tok <- lift (getitem resp "access_token") ;;
    set_access_token tok ;;
    resp <- lift (getitem respond "response") ;;
    user <- lift (getitem resp "user") ;;
    id <- lift (getitem user "id") ;;
    set_user_id (PStr (py_str id)) ;;
    cookie <- match header_get (headers r) "Set-Cookie" with
              | Some c => ret c
              | None => raise (KeyError "set-cookie")
              end ;;
    match re_search_PHPSESSID cookie with
    | Some g => set_session_id (PStr g)
    | None => raise AttributeError
    end ;;
    save_session ;;
    ret PNone
  else
    raise (RuntimeError [PStr "[ERROR] connection failed!";
                         PInt (status_code r)]).

(** [login_required(self)], with [depth] nested calls still allowed. *)
Fixpoint login_required_rec (depth : nat) : M unit :=
  o <- get_self ;;
  if negb (truthy (access_token o)) then
    print "Please login" ;;
    username <- input "username:" ;;
    password <- getpass "password:" ;;
    try_except
      (login username password ;; ret tt)
      (fun e =>
         print "Login failed:" ;;
         print (str_exn e) ;;
         answer <- input "Retry? y/n" ;;
         if String.eqb answer "y" then
           match depth with
           | O => raise RecursionError
           | S depth' => login_required_rec depth'
           end
         else raise SystemExit)
  else ret tt.

Definition login_required : M unit := login_required_rec recursion_limit.

(** [__init__(self)]. *)
Definition __init__ : M unit :=
  found <- path_exists_session ;;
  if found : bool then
    loaded <- load_session ;;
    if truthy loaded then
      valid <- check_expired ;;
      if valid : bool then ret tt else login_required
    else login_required
  else login_required.

(** [parse_result(r)]. *)
Definition parse_result (r : response) : Res pyval :=
  match json_loads (text r) with
  | None => Raise JSONDecodeError
  | Some data =>
      match getitem data "status" with
      | Raise e => Raise e
      | Ok status =>
          if eq_str status "success" then getitem data "response"
          else Raise (Pixiv_Get_Error (url r))
      end
  end.

Definition default {A : Type} (d : A) (o : option A) : A :=
  match o with
  | Some a => a
  | None => d
  end.

(** [get_user_illustrations(self, user_id, per_page=9999, page=1)]; an
    omitted keyword argument is [None]. *)
Definition get_user_illustrations (user_id : pyval)
    (per_page page : option Z) : M pyval :=
  let per_page := default 9999 per_page in
  let page := default 1 page in
  login_required ;;
  let url := "https://public-api.secure.pixiv.net/v1/users/"
             ++ py_str user_id ++ "/works.json" in
  let params :=
    [("page", PInt page);
     ("per_page", PInt per_page);
     ("include_stats", PBool true);
     ("include_sanity_level", PBool true);
     ("image_sizes", PStr image_sizes);
     ("profile_image_sizes", PStr profile_image_sizes)] in
  r <- _request_pixiv "GET" url None (Some params) None ;;
  lift (parse_result r).

(** [get_illustration(self, illustration_id)]. *)
Definition get_illustration (illustration_id : pyval) : M pyval :=
  login_required ;;
  let url := "https://public-api.secure.pixiv.net/v1/works/"
             ++ py_str illustration_id ++ ".json" in
  let params :=
    [("profile_image_sizes", PStr profile_image_sizes);
     ("image_sizes", PStr image_sizes);
     ("include_stats", PStr "true");
     ("include_sanity_level", PBool true)] in
  r <- _request_pixiv "GET" url None (Some params) None ;;
  lift (parse_result r).

(** [get_ranking_illustrations(self, mode='daily', date='', per_page=100,
    page=1)]. *)
Definition get_ranking_illustrations (mode date : option string)
    (per_page page : option Z) : M pyval :=
  let mode := default "daily" mode in
  let date := default "" date in
  let per_page := default 100 per_page in
  let page := default 1 page in
  login_required ;;
  let url := "https://public-api.secure.pixiv.net/v1/ranking/all" in
  let params :=
    [("mode", PStr mode);
     ("page", PInt page);
     ("per_page", PInt per_page);
     ("include_stats", PBool true);
     ("include_sanity_level", PBool true);
     ("image_sizes", PStr image_sizes);
     ("profile_image_sizes", PStr profile_image_sizes)] in
  let params :=
    if truthy (PStr date) then dict_set params "date" (PStr date)
    else params in
  r <- _request_pixiv "GET" url None (Some params) None ;;
  lift (parse_result r).

End Client.

(** ** A JSON codec to run the client on concrete files and bodies

    The methods above take the JSON library as a parameter.  This module is
    one codec to instantiate them with: it reads and writes [null], the
    booleans, integers, strings with the usual escapes, arrays and objects,
    in the layout of [json.dumps] (separators [", "] and [": "]).  Numbers
    with a fraction or an exponent are outside it and are rejected. *)
Module MiniJson.

Definition quote : ascii := ascii_of_nat 34.
Definition backslash : ascii := ascii_of_nat 92.

Definition is_ws (c : ascii) : bool :=
  let n := nat_of_ascii c in
  (Nat.eqb n 32 || Nat.eqb n 9 || Nat.eqb n 10 || Nat.eqb n 13)%bool.

Fixpoint skip_ws (s : string) : string :=
  match s with
  | String c s' => if is_ws c then skip_ws s' else s
  | EmptyString => s
  end.

Definition is_digit (c : ascii) : bool :=
  let n := nat_of_ascii c in (Nat.leb 48 n && Nat.leb n 57)%bool.

Definition digit_val (c : ascii) : N := N.of_nat (nat_of_ascii c - 48).

(** The digits at the start of [s], read in base ten onto [acc]. *)
Fixpoint parse_digits (s : string) (acc : N) : N * string :=
  match s with
  | String c s' =>
      if is_digit c then parse_digits s' (10 * acc + digit_val c)%N
      else (acc, s)
  | EmptyString => (acc, s)
  end.

Definition starts_fraction (s : string) : bool :=
  match s with
  | String c _ =>
      (Ascii.eqb c "."%char || Ascii.eqb c "e"%char || Ascii.eqb c "E"%char)%bool
  | EmptyString => false
  end.

Definition parse_nat_part (s : string) : option (N * string) :=
  match s with
  | String c s' =>
      if Ascii.eqb c "0"%char then Some (0%N, s')
      else if is_digit c then Some (parse_digits s 0%N)
      else None
  | EmptyString => None
  end.

Definition parse_number (s : string) : option (pyval * string) :=
  let (neg, body) :=
    match s with
    | String c s' => if Ascii.eqb c "-"%char then (true, s') else (false, s)
    | EmptyString => (false, s)
    end in
  match parse_nat_part body with
  | Some (n, rest) =>
      if starts_fraction rest then None
      else Some (PInt (if neg : bool then - Z.of_N n else Z.of_N n), rest)
  | None => None
  end.

Definition hex_val (c : ascii) : option nat :=
  let n := nat_of_ascii c in
  if (Nat.leb 48 n && Nat.leb n 57)%bool then Some (n - 48)%nat
  else if (Nat.leb 97 n && Nat.leb n 102)%bool then Some (n - 87)%nat
  else if (Nat.leb 65 n && Nat.leb n 70)%bool then Some (n - 55)%nat
  else None.

Definition unescape (c : ascii) : option ascii :=
  let n := nat_of_ascii c in
  if Nat.eqb n 34 then Some quote
  else if Nat.eqb n 92 then Some backslash
  else if Nat.eqb n 47 then Some "/"%char
  else if Nat.eqb n 98 then Some (ascii_of_nat 8)
  else if Nat.eqb n 102 then Some (ascii_of_nat 12)
  else if Nat.eqb n 110 then Some (ascii_of_nat 10)
  else if Nat.eqb n 114 then Some (ascii_of_nat 13)
  else if Nat.eqb n 116 then Some (ascii_of_nat 9)
  else None.

(** The rest of a string literal after its opening quote: the decoded
    text and what follows the closing quote.  A raw control character
    and an escape [\uXXXX] above [ÿ] are rejected. *)
Fixpoint parse_string_body (s : string) : option (string * string) :=
  match s with
  | EmptyString => None
  | String c r =>
      if Ascii.eqb c quote then Some ("", r)
      else if Ascii.eqb c backslash then
        match r with
        | String e r1 =>
            if Ascii.eqb e "u"%char then
              match r1 with
              | String h1 (String h2 (String h3 (String h4 r2))) =>
                  match hex_val h1, hex_val h2, hex_val h3, hex_val h4 with
                  | Some 0%nat, Some 0%nat, Some a, Some b =>
                      match parse_string_body r2 with
                      | Some (t, rest) =>
                          Some (String (ascii_of_nat (16 * a + b)) t, rest)
                      | None => None
                      end
                  | _, _, _, _ => None
                  end
              | _ => None
              end
            else
              match unescape e with
              | Some ch =>
                  match parse_string_body r1 with
                  | Some (t, rest) => Some (String ch t, rest)
                  | None => None
                  end
              | None => None
              end
        | EmptyString => None
        end
      else if Nat.ltb (nat_of_ascii c) 32 then None
      else
        match parse_string_body r with
        | Some (t, rest) => Some (String c t, rest)
        | None => None
        end
  end.

(** [parse_value] reads one value at the start of [s]; [parse_elements]
    the elements of an array up to its [ ] ]; [parse_members] the members
    of an object up to its [ } ].  [fuel] bounds the nesting of calls. *)
Fixpoint parse_value (fuel : nat) (s : string) : option (pyval * string) :=
  match fuel with
  | O => None
  | S f =>
      match s with
      | EmptyString => None
      | String c r =>
          if Ascii.eqb c quote then
            match parse_string_body r with
            | Some (t, rest) => Some (PStr t, rest)
            | None => None
            end
          else if Ascii.eqb c "["%char then
            match skip_ws r with
            | String c1 r1 =>
                if Ascii.eqb c1 "]"%char then Some (PList [], r1)
                else match parse_elements f (skip_ws r) with
                     | Some (l, rest) => Some (PList l, rest)
                     | None => None
                     end
            | EmptyString => None
            end
          else if Ascii.eqb c "{"%char then
            match skip_ws r with
            | String c1 r1 =>
                if Ascii.eqb c1 "}"%char then Some (PDict [], r1)
                else match parse_members f (skip_ws r) with
                     | Some (d, rest) => Some (PDict (dict_update [] d), rest)
                     | None => None
                     end
            | EmptyString => None
            end
          else
            match strip_prefix "null" s with
            | Some rest => Some (PNone, rest)
            | None =>
                match strip_prefix "true" s with
                | Some rest => Some (PBool true, rest)
                | None =>
                    match strip_prefix "false" s with
                    | Some rest => Some (PBool false, rest)
                    | None => parse_number s
                    end
                end
            end
      end
  end
with parse_elements (fuel : nat) (s : string) : option (list pyval * string) :=
  match fuel with
  | O => None
  | S f =>
      match parse_value f s with
      | Some (v, r) =>
          match skip_ws r with
          | String c r1 =>
              if Ascii.eqb c ","%char then
                match parse_elements f (skip_ws r1) with
                | Some (l, rest) => Some (v :: l, rest)
                | None => None
                end
              else if Ascii.eqb c "]"%char then Some ([v], r1)
              else None
          | EmptyString => None
          end
      | None => None
      end
  end
with parse_members (fuel : nat) (s : string)
  : option (list (string * pyval) * string) :=
  match fuel with
  | O => None
  | S f =>
      match s with
      | String q r =>
          if Ascii.eqb q quote then
            match parse_string_body r with
            | Some (k, r1) =>
                match skip_ws r1 with
                | String c r2 =>
                    if Ascii.eqb c ":"%char then
                      match parse_value f (skip_ws r2) with
                      | Some (v, r3) =>
                          match skip_ws r3 with
                          | String c3 r4 =>
                              if Ascii.eqb c3 ","%char then
                                match parse_members f (skip_ws r4) with
                                | Some (d, rest) => Some ((k, v) :: d, rest)
                                | None => None
                                end
                              else if Ascii.eqb c3 "}"%char then Some ([(k, v)], r4)
                              else None
                          | EmptyString => None
                          end
                      | None => None
                      end
                    else None
                | EmptyString => None
                end
            | None => None
            end
          else None
      | EmptyString => None
      end
  end.

(** [json.loads(s)]: one value, with nothing but white space around it. *)
Definition loads (s : string) : option pyval :=
  match parse_value (2 * String.length s + 2) (skip_ws s) with
  | Some (v, rest) =>
      match skip_ws rest with
      | EmptyString => Some v
      | String _ _ => None
      end
  | None => None
  end.

Definition hex_digit (n : nat) : ascii :=
  if Nat.ltb n 10 then ascii_of_nat (48 + n) else ascii_of_nat (87 + n).

Definition escape_char (c : ascii) : string :=
  let n := nat_of_ascii c in
  if Nat.eqb n 34 then String backslash (String quote "")
  else if Nat.eqb n 92 then String backslash (String backslash "")
  else if Nat.eqb n 10 then String backslash "n"
  else if Nat.eqb n 13 then String backslash "r"
  else if Nat.eqb n 9 then String backslash "t"
  else if Nat.eqb n 8 then String backslash "b"
  else if Nat.eqb n 12 then String backslash "f"
  else if Nat.ltb n 32 then
    String backslash
      (String "u" (String "0" (String "0"
         (String (hex_digit (n / 16)) (String (hex_digit (n mod 16)) "")))))
  else String c "".

Fixpoint escape (s : string) : string :=
  match s with
  | EmptyString => EmptyString
  | String c s' => escape_char c ++ escape s'
  end.

Definition dump_str (s : string) : string :=
  String quote (escape s ++ String quote "").

(** [json.dumps(v)]. *)
Fixpoint dumps (v : pyval) : string :=
  match v with
  | PNone => "null"
  | PBool true => "true"
  | PBool false => "false"
  | PInt z => str_of_Z z
  | PFloat r => r
  | PStr s => dump_str s
  | PList l => "[" ++ join ", " (map dumps l) ++ "]"
  | PDict d =>
      "{" ++ join ", "
               (map (fun kv => match kv with
                               | (k, x) => dump_str k ++ ": " ++ dumps x
                               end) d) ++ "}"
  end.

End MiniJson.

(** ** A concrete environment *)

(** Apostrophes turned into double quotes, to write JSON text legibly. *)
Fixpoint dq (s : string) : string :=
  match s with
  | EmptyString => EmptyString
  | String c s' =>
      String (if Ascii.eqb c "'"%char then MiniJson.quote else c) (dq s')
  end.

(** [repr(v)]; for text without quotes, backslashes and control characters
    this is what Python prints. *)
Fixpoint py_repr (v : pyval) : string :=
  match v with
  | PNone => "None"
  | PBool true => "True"
  | PBool false => "False"
  | PInt z => str_of_Z z
  | PFloat r => r
  | PStr s => "'" ++ s ++ "'"
  | PList l => "[" ++ join ", " (map py_repr l) ++ "]"
  | PDict d =>
      "{" ++ join ", "
               (map (fun kv => match kv with
                               | (k, x) => "'" ++ k ++ "': " ++ py_repr x
                               end) d) ++ "}"
  end.

(** [str(e)] for the exceptions of the program. *)
Definition mini_str_exn (e : exn) : string :=
  match e with
  | KeyError k => "'" ++ k ++ "'"
  | TypeError => "object is not subscriptable"
  | AttributeError => "'NoneType' object has no attribute 'group'"
  | JSONDecodeError => "Expecting value: line 1 column 1 (char 0)"
  | FileNotFoundError => "[Errno 2] No such file or directory: 'session'"
  | EOFError => "EOF when reading a line"
  | TransportError info => info
  | RuntimeError args =>
      match args with
      | [] => ""
      | [PStr s] => s
      | _ => "(" ++ join ", " (map py_repr args) ++ ")"
      end
  | Pixiv_Get_Error u => u
  | RecursionError => "maximum recursion depth exceeded"
  | SystemExit => ""
  end.

(** The environment with the codec of [MiniJson] and a given server. *)
Definition mini_env (server : list request -> request -> Res response) : Env :=
  {| json_loads := MiniJson.loads;
     json_dumps := MiniJson.dumps;
     repr_container := py_repr;
     str_exn := mini_str_exn;
     http := server;
     recursion_limit := 1000 |}.

(** A server that answers every request with the same response. *)
Definition constant_server (r : response) : list request -> request -> Res response :=
  fun _ _ => Ok r.

(** A state of the whole system: a client with its attributes, the file
    [session] and the lines to be typed. *)
Definition state_of (o : PixivApi) (file : option string) (typed : list string)
  : State :=
  {| self := o;
     world := {| fs_session := file; net_log := []; tty_in := typed;
                 tty_out := [] |} |}.

(** [m] called [n] times in a row. *)
Fixpoint repeat_call (n : nat) (m : M unit) : M unit :=
  match n with
  | O => ret tt
  | S k => m ;; repeat_call k m
  end.

(** ** Vocabulary for the statements *)

(** The client after [_request_pixiv] made sure a transport exists. *)
Definition with_transport (o : PixivApi) : PixivApi :=
  {| session_id := session_id o; access_token := access_token o;
     session := Session; user_id := user_id o; timeout := timeout o |}.

(** The state once [rq] has gone out. *)
Definition after_send (st : State) (rq : request) : State :=
  {| self := with_transport (self st);
     world := {| fs_session := fs_session (world st);
                 net_log := net_log (world st) ++ [rq];
                 tty_in := tty_in (world st);
                 tty_out := tty_out (world st) |} |}.

Section Requests.

Context {env : Env}.

(** The [GET] request that [_request_pixiv] sends for a client [o]. *)
Definition get_request (o : PixivApi) (url : string)
    (params : option (list (string * pyval))) : request :=
  {| req_method := "GET"; req_url := url;
     req_headers := pixiv_headers o None; req_params := params;
     req_data := None; req_timeout := timeout o |}.

(** The [POST] request of [login]. *)
Definition login_request (o : PixivApi) (username password : string) : request :=
  {| req_method := "POST";
     req_url := "https://oauth.secure.pixiv.net/auth/token";
     req_headers := pixiv_headers o None; req_params := None;
     req_data := Some (login_data username password);
     req_timeout := timeout o |}.

(** The probe of [check_expired]. *)
Definition probe_request (o : PixivApi) : request :=
  get_request o probe_url None.

(** What the probe's answer says: the verdict [check_expired] reaches. *)
Definition verdict (r : response) : bool :=
  ok_status (status_code r) &&
  match json_loads (text r) with
  | Some body =>
      match getitem body "status" with
      | Ok status => eq_str status "success"
      | Raise _ => false
      end
  | None => false
  end.

End Requests.


(** ** Sample exchanges *)

(** The answer of the service to a good login: status 200, the token and
    the numeric user id in the body, the session cookie in a header. *)
Definition login_ok_response : response :=
  {| status_code := 200;
     text := dq "{'response': {'access_token': 'tok', 'user': {'id': 42}}}";
     headers := [("Set-Cookie", "PHPSESSID=abc123; Path=/")];
     url := "https://oauth.secure.pixiv.net/auth/token" |}.

(** A refused login. *)
Definition forbidden_response : response :=
  {| status_code := 403;
     text := dq "{'has_error': true}";
     headers := [];
     url := "https://oauth.secure.pixiv.net/auth/token" |}.

(** The probe answered for a live session. *)
Definition probe_ok_response : response :=
  {| status_code := 200;
     text := dq "{'status': 'success', 'response': []}";
     headers := [];
     url := probe_url |}.

(** A query answered with a payload, and one answered with a failure. *)
Definition query_ok_response : response :=
  {| status_code := 200;
     text := dq "{'status': 'success', 'response': [{'id': 1}]}";
     headers := [];
     url := "https://public-api.secure.pixiv.net/v1/works/1.json" |}.

Definition query_failure_response : response :=
  {| status_code := 200;
     text := dq "{'status': 'failure'}";
     headers := [];
     url := "https://public-api.secure.pixiv.net/v1/works/1.json" |}.

(** A client that holds a full credential record. *)
Definition logged_in_client : PixivApi :=
  {| session_id := PStr "abc123";
     access_token := PStr "tok";
     session := NoSession;
     user_id := PStr "42";
     timeout := 10 |}.

(** A session file that is valid JSON but has only one of the three keys. *)
Definition partial_file : string := dq "{'access_token': 'tok'}".

(** Environments with a server that gives one of these answers. *)
Definition env_login_ok : Env := mini_env (constant_server login_ok_response).
Definition env_forbidden : Env := mini_env (constant_server forbidden_response).
Definition env_probe_ok : Env := mini_env (constant_server probe_ok_response).

(** A new process, without a session file, and one that holds a record. *)
Definition st_fresh : State := state_of PixivApi_defaults None [].
Definition st_logged_in : State := state_of logged_in_client None [].

(** ** Vocabulary for the codec *)

Section CodecVocabulary.

Import MiniJson.

(** The values without structure: [None] and strings. *)
Definition plain (v : pyval) : bool :=
  match v with
  | PNone | PStr _ => true
  | _ => false
  end.

(** The text of one member [key: value] of an object, followed by [t]. *)
Definition member_text (k : string) (v : pyval) (t : string) : string :=
  String quote
    (escape k ++ String quote (String ":" (String " " (dumps v ++ t)))).

End CodecVocabulary.

(** ** Further sample exchanges *)

(** The three headers every request carries. *)
Definition fixed_headers : list (string * string) :=
  [("Referer", "http://www.pixiv.net/");
   ("User-Agent", User_Agent);
   ("Content-Type", "application/x-www-form-urlencoded")].

(** A good login answered without a cookie header, with a cookie header
    that has no [PHPSESSID=...;], and with a body that is not JSON. *)
Definition login_no_cookie_response : response :=
  {| status_code := 200;
     text := dq "{'response': {'access_token': 'tok', 'user': {'id': 42}}}";
     headers := [("Content-Type", "application/json")];
     url := "https://oauth.secure.pixiv.net/auth/token" |}.

Definition login_other_cookie_response : response :=
  {| status_code := 200;
     text := dq "{'response': {'access_token': 'tok', 'user': {'id': 42}}}";
     headers := [("Set-Cookie", "device_token=xyz; Path=/")];
     url := "https://oauth.secure.pixiv.net/auth/token" |}.

Definition login_html_response : response :=
  {| status_code := 200;
     text := "<html>Service Unavailable</html>";
     headers := [("Set-Cookie", "PHPSESSID=abc123; Path=/")];
     url := "https://oauth.secure.pixiv.net/auth/token" |}.

(** A transport that fails on every request. *)
Definition failing_server : list request -> request -> Res response :=
  fun _ _ => Raise (TransportError "Connection refused").

Definition env_no_cookie : Env :=
  mini_env (constant_server login_no_cookie_response).
Definition env_other_cookie : Env :=
  mini_env (constant_server login_other_cookie_response).
Definition env_html : Env := mini_env (constant_server login_html_response).
Definition env_down : Env := mini_env failing_server.
Definition env_query_ok : Env := mini_env (constant_server query_ok_response).

(** A full session file with one more key, in another order. *)
Definition full_file : string :=
  dq "{'session_id': 'abc123', 'expires': 3600, 'user_id': '42', 'access_token': 'tok'}".

(** A session file cut off in the middle, and one holding a JSON array. *)
Definition truncated_file : string := dq "{'access_token': 'to".
Definition array_file : string := "[1, 2]".

(** ** Vocabulary for the terminal *)

(** The state after [s] was written to the terminal. *)
Definition say (s : string) (st : State) : State :=
  {| self := self st;
     world := {| fs_session := fs_session (world st);
                 net_log := net_log (world st);
                 tty_in := tty_in (world st);
                 tty_out := tty_out (world st) ++ [s] |} |}.

(** The state after one typed line was taken. *)
Definition read_line (st : State) : State :=
  {| self := self st;
     world := {| fs_session := fs_session (world st);
                 net_log := net_log (world st);
                 tty_in := tl (tty_in (world st));
                 tty_out := tty_out (world st) |} |}.

(** The state in which [login_required] calls [login]: the invitation and
    the two prompts shown, the two answers taken. *)
Definition asked_credentials (st : State) : State :=
  read_line (say "password:"
    (read_line (say "username:"
       (say ("Please login" ++ String newline "") st)))).

(** The state after a failed login was reported and the retry question
    answered. *)
Definition asked_retry (message : string) (st : State) : State :=
  read_line (say "Retry? y/n"
    (say (message ++ String newline "")
       (say ("Login failed:" ++ String newline "") st))).

(** ** Further sample states *)

(** A new process next to a session file with the given content. *)
Definition st_with_file (content : string) : State :=
  state_of PixivApi_defaults (Some content) [].

(** A new process without a session file, with lines ready to be typed. *)
Definition st_typing (lines : list string) : State :=
  state_of PixivApi_defaults None lines.

(** ** Facts about the request plumbing *)

Ltac unfold_monad :=
  unfold bind, ret, raise, lift, get_self, get_world, put_self, put_world,
    set_access_token, set_user_id, set_session_id, set_session, print,
    print_noend, write, write_session_file, read_session_file,
    path_exists_session, try_except, finally_return in *.

Lemma bind_Ok {A B : Type} (m : M A) (k : A -> M B) (st st1 : State) (a : A) :
  m st = (Ok a, st1) -> bind m k st = k a st1.
Proof. unfold bind. intros ->. reflexivity. Qed.

Lemma bind_Raise {A B : Type} (m : M A) (k : A -> M B) (st st1 : State) (e : exn) :
  m st = (Raise e, st1) -> bind m k st = (Raise e, st1).
Proof. unfold bind. intros ->. reflexivity. Qed.

Section RequestFacts.

Context {env : Env}.

Lemma with_transport_Session (o : PixivApi) :
  session o = Session -> with_transport o = o.
Proof. destruct o; simpl; intros ->; reflexivity. Qed.

Lemma request_pixiv_GET (url : string) params data (st : State) :
  _request_pixiv "GET" url None params data st
  = (http (net_log (world st)) (get_request (self st) url params),
     after_send st (get_request (self st) url params)).
Proof.
  destruct st as [o w]. unfold _request_pixiv, send, get_request, after_send.
  unfold_monad. simpl.
  destruct (session o) eqn:Hs; simpl.
  - reflexivity.
  - rewrite (with_transport_Session o Hs). reflexivity.
Qed.

Lemma request_pixiv_POST (url : string) params data (st : State) :
  _request_pixiv "POST" url None params data st
  = (let rq := {| req_method := "POST"; req_url := url;
                  req_headers := pixiv_headers (self st) None;
                  req_params := params; req_data := data;
                  req_timeout := timeout (self st) |} in
     (http (net_log (world st)) rq, after_send st rq)).
Proof.
  destruct st as [o w]. unfold _request_pixiv, send, after_send.
  unfold_monad. simpl.
  destruct (session o) eqn:Hs; simpl.
  - reflexivity.
  - rewrite (with_transport_Session o Hs). reflexivity.
Qed.

Lemma bind_request_POST {B : Type} (url : string) params data
    (k : response -> M B) (st : State) :
  bind (_request_pixiv "POST" url None params data) k st
  = match http (net_log (world st))
            {| req_method := "POST"; req_url := url;
               req_headers := pixiv_headers (self st) None;
               req_params := params; req_data := data;
               req_timeout := timeout (self st) |} with
    | Ok r =>
        k r (after_send st
               {| req_method := "POST"; req_url := url;
                  req_headers := pixiv_headers (self st) None;
                  req_params := params; req_data := data;
                  req_timeout := timeout (self st) |})
    | Raise e =>
        (Raise e,
         after_send st
           {| req_method := "POST"; req_url := url;
              req_headers := pixiv_headers (self st) None;
              req_params := params; req_data := data;
              req_timeout := timeout (self st) |})
    end.
Proof.
  unfold bind at 1. rewrite request_pixiv_POST. cbn zeta.
  destruct (http _ _); reflexivity.
Qed.

Lemma bind_request_GET {B : Type} (url : string) params data
    (k : response -> M B) (st : State) :
  bind (_request_pixiv "GET" url None params data) k st
  = match http (net_log (world st)) (get_request (self st) url params) with
    | Ok r => k r (after_send st (get_request (self st) url params))
    | Raise e => (Raise e, after_send st (get_request (self st) url params))
    end.
Proof.
  unfold bind at 1. rewrite request_pixiv_GET.
  destruct (http _ _); reflexivity.
Qed.

End RequestFacts.

(** ** The session validator *)

Section Validator.

Context {env : Env}.

Lemma eq_str_true (v : pyval) (s : string) :
  eq_str v s = true <-> v = PStr s.
Proof.
  destruct v; simpl; split; try discriminate.
  - intros H. apply String.eqb_eq in H. now subst.
  - intros H. inversion H. apply String.eqb_refl.
Qed.

Lemma ok_status_true (code : Z) :
  ok_status code = true <-> code = 200 \/ code = 301 \/ code = 302.
Proof.
  unfold ok_status. rewrite !orb_true_iff, !Z.eqb_eq. tauto.
Qed.

Lemma verdict_true (r : response) :
  verdict r = true <->
  (status_code r = 200 \/ status_code r = 301 \/ status_code r = 302) /\
  exists body, json_loads (text r) = Some body /\
               getitem body "status" = Ok (PStr "success").
Proof.
  unfold verdict. rewrite andb_true_iff, ok_status_true.
  split; intros [Hs Hb]; split; trivial.
  - destruct (json_loads (text r)) as [body|]; [|discriminate].
    exists body. split; trivial.
    destruct (getitem body "status") as [status|]; [|discriminate].
    apply eq_str_true in Hb. now subst.
  - destruct Hb as (body & -> & ->). simpl. reflexivity.
Qed.

(** [check_expired] on a probe that was answered: the verdict is
    returned; the attributes other than the transport and the token, and
    the file, are as before; the token is cleared on [False]. *)
Lemma check_expired_answered (st : State) (r : response) :
  http (net_log (world st)) (probe_request (self st)) = Ok r ->
  exists st' : State,
    check_expired st = (Ok (verdict r), st') /\
    access_token (self st')
      = (if verdict r then access_token (self st) else PNone) /\
    user_id (self st') = user_id (self st) /\
    session_id (self st') = session_id (self st) /\
    timeout (self st') = timeout (self st) /\
    fs_session (world st') = fs_session (world st) /\
    net_log (world st')
      = (net_log (world st) ++ [probe_request (self st)])%list.
Proof.
  intros Hr. unfold check_expired.
  erewrite bind_Ok by reflexivity.
  erewrite bind_Ok
    by (rewrite request_pixiv_GET; cbn [self world net_log];
        unfold probe_request in Hr; rewrite Hr; reflexivity).
  unfold verdict. destruct st as [o w]. cbn [self world] in *.
  destruct (ok_status (status_code r)); cbn [andb].
  - destruct (json_loads (text r)) as [body|].
    + destruct (getitem body "status") as [status|e] eqn:Hg.
      * unfold_monad. cbn. rewrite Hg. cbn.
        destruct (eq_str status "success"); cbn; eexists;
          repeat split; reflexivity.
      * unfold_monad. cbn. rewrite Hg. cbn.
        assert (He : is_Exception e = true).
        { destruct body; simpl in Hg; try (inversion Hg; reflexivity).
          destruct (dict_get d "status"); inversion Hg; reflexivity. }
        rewrite He. cbn. eexists; repeat split; reflexivity.
    + unfold_monad. cbn. eexists; repeat split; reflexivity.
  - unfold_monad. cbn. eexists; repeat split; reflexivity.
Qed.

End Validator.

(** ** The authenticator *)

Section Authenticator.

Context {env : Env}.

Lemma ok_status_false (code : Z) :
  code <> 200 -> code <> 301 -> code <> 302 -> ok_status code = false.
Proof.
  intros H1 H2 H3. unfold ok_status.
  apply Z.eqb_neq in H1, H2, H3. rewrite H1, H2, H3. reflexivity.
Qed.

(** A login exchange answered with a status outside 200, 301, 302. *)
Lemma login_bad_status (st : State) (username password : string) (r : response) :
  http (net_log (world st)) (login_request (self st) username password) = Ok r ->
  ok_status (status_code r) = false ->
  login username password st
  = (Raise (RuntimeError [PStr "[ERROR] connection failed!";
                          PInt (status_code r)]),
     after_send st (login_request (self st) username password)).
Proof.
  intros Hr Hs. unfold login.
  erewrite bind_Ok
    by (rewrite request_pixiv_POST; cbn zeta;
        unfold login_request in Hr; rewrite Hr; reflexivity).
  rewrite Hs. reflexivity.
Qed.

(** A login exchange answered as the service answers a good login. *)
Lemma login_success (st : State) (username password : string) (r : response)
    (respond resp tok user id : pyval) (cookie sid : string) :
  http (net_log (world st)) (login_request (self st) username password) = Ok r ->
  ok_status (status_code r) = true ->
  json_loads (text r) = Some respond ->
  getitem respond "response" = Ok resp ->
  getitem resp "access_token" = Ok tok ->
  getitem resp "user" = Ok user ->
  getitem user "id" = Ok id ->
  header_get (headers r) "Set-Cookie" = Some cookie ->
  re_search_PHPSESSID cookie = Some sid ->
  let o' := {| session_id := PStr sid; access_token := tok;
               session := Session; user_id := PStr (py_str id);
               timeout := timeout (self st) |} in
  login username password st
  = (Ok PNone,
     {| self := o';
        world := {| fs_session := Some (json_dumps (session_data o'));
                    net_log := net_log (world st)
                               ++ [login_request (self st) username password];
                    tty_in := tty_in (world st);
                    tty_out := tty_out (world st) |} |}).
Proof.
  intros Hr Hs Hj H1 H2 H3 H4 Hc Hre o'. unfold login.
  erewrite bind_Ok
    by (rewrite request_pixiv_POST; cbn zeta;
        unfold login_request in Hr; rewrite Hr; reflexivity).
  rewrite Hs, Hj. unfold save_session. unfold_monad.
  cbn -[getitem header_get re_search_PHPSESSID].
  rewrite H1. cbn -[getitem header_get re_search_PHPSESSID].
  rewrite H2. cbn -[getitem header_get re_search_PHPSESSID].
  rewrite H3. cbn -[getitem header_get re_search_PHPSESSID].
  rewrite H4. cbn -[getitem header_get re_search_PHPSESSID].
  rewrite Hc. cbn -[getitem header_get re_search_PHPSESSID].
  rewrite Hre. reflexivity.
Qed.

End Authenticator.

(** ** The session store *)

Section Store.

Context {env : Env}.

Lemma read_session_file_Some (st : State) (content : string) :
  fs_session (world st) = Some content ->
  read_session_file st = (Ok content, st).
Proof.
  intros Hf. unfold read_session_file, bind, get_world. rewrite Hf.
  reflexivity.
Qed.


(** Content that does not decode gives [None] and changes nothing. *)
Lemma load_session_undecodable (st : State) (content : string) :
  fs_session (world st) = Some content ->
  json_loads content = None ->
  load_session st = (Ok PNone, st).
Proof.
  intros Hf Hj. unfold load_session.
  erewrite bind_Ok by (apply read_session_file_Some; exact Hf).
  rewrite Hj. destruct st as [o [f l i t]]. reflexivity.
Qed.

(** Content that decodes to a dict with the three keys is taken over. *)
Lemma load_session_complete (st : State) (content : string)
    (d : list (string * pyval)) (a u s : pyval) :
  fs_session (world st) = Some content ->
  json_loads content = Some (PDict d) ->
  dict_get d "access_token" = Some a ->
  dict_get d "user_id" = Some u ->
  dict_get d "session_id" = Some s ->
  load_session st
  = (Ok (PDict d),
     {| self := {| session_id := s; access_token := a;
                   session := session (self st); user_id := u;
                   timeout := timeout (self st) |};
        world := world st |}).
Proof.
  intros Hf Hj Ha Hu Hs. unfold load_session.
  erewrite bind_Ok by (apply read_session_file_Some; exact Hf).
  rewrite Hj. unfold finally_return, getitem.
  rewrite Ha, Hu, Hs. reflexivity.
Qed.

(** Content that decodes to a dict with [access_token] but without
    [user_id]: the token is assigned, the [KeyError] is dropped, and the
    dict itself is returned. *)
Lemma load_session_partial (st : State) (content : string)
    (d : list (string * pyval)) (a : pyval) :
  fs_session (world st) = Some content ->
  json_loads content = Some (PDict d) ->
  dict_get d "access_token" = Some a ->
  dict_get d "user_id" = None ->
  load_session st
  = (Ok (PDict d),
     {| self := {| session_id := session_id (self st); access_token := a;
                   session := session (self st); user_id := user_id (self st);
                   timeout := timeout (self st) |};
        world := world st |}).
Proof.
  intros Hf Hj Ha Hu. unfold load_session.
  erewrite bind_Ok by (apply read_session_file_Some; exact Hf).
  rewrite Hj. unfold finally_return, getitem.
  rewrite Ha, Hu. reflexivity.
Qed.

Lemma save_session_writes (st : State) :
  save_session st
  = (Ok tt,
     {| self := self st;
        world := {| fs_session := Some (json_dumps (session_data (self st)));
                    net_log := net_log (world st);
                    tty_in := tty_in (world st);
                    tty_out := tty_out (world st) |} |}).
Proof. reflexivity. Qed.

End Store.

(** ** The result envelope *)

Section Envelope.

Context {env : Env}.

Lemma parse_result_success (r : response) (data payload : pyval) :
  json_loads (text r) = Some data ->
  getitem data "status" = Ok (PStr "success") ->
  getitem data "response" = Ok payload ->
  parse_result r = Ok payload.
Proof.
  intros Hj Hs Hp. unfold parse_result. rewrite Hj, Hs. simpl. exact Hp.
Qed.

Lemma parse_result_failure (r : response) (data status : pyval) :
  json_loads (text r) = Some data ->
  getitem data "status" = Ok status ->
  status <> PStr "success" ->
  parse_result r = Raise (Pixiv_Get_Error (url r)).
Proof.
  intros Hj Hs Hne. unfold parse_result. rewrite Hj, Hs.
  destruct (eq_str status "success") eqn:E; [|reflexivity].
  apply eq_str_true in E. contradiction.
Qed.

Lemma parse_result_Ok_inv (r : response) (payload : pyval) :
  parse_result r = Ok payload ->
  exists data, json_loads (text r) = Some data /\
               getitem data "status" = Ok (PStr "success") /\
               getitem data "response" = Ok payload.
Proof.
  unfold parse_result. destruct (json_loads (text r)) as [data|]; [|discriminate].
  destruct (getitem data "status") as [status|] eqn:Hs; [|discriminate].
  destruct (eq_str status "success") eqn:E; [|discriminate].
  apply eq_str_true in E. subst. intros Hp. exists data. auto.
Qed.

End Envelope.

(** ** The session manager *)

Section Manager.

Context {env : Env}.

(** With a token in memory, [login_required] does nothing at all. *)
Lemma login_required_rec_valid (depth : nat) (st : State) :
  truthy (access_token (self st)) = true ->
  login_required_rec depth st = (Ok tt, st).
Proof.
  intros Ht. destruct depth; simpl; unfold bind, get_self;
    rewrite Ht; reflexivity.
Qed.

Lemma login_required_valid (st : State) :
  truthy (access_token (self st)) = true ->
  login_required st = (Ok tt, st).
Proof. apply login_required_rec_valid. Qed.

Lemma repeat_login_required_valid (n : nat) (st : State) :
  truthy (access_token (self st)) = true ->
  repeat_call n login_required st = (Ok tt, st).
Proof.
  intros Ht. induction n as [|n IH]; simpl.
  - reflexivity.
  - erewrite bind_Ok by (apply login_required_valid; exact Ht). exact IH.
Qed.

End Manager.

(** ** The query layer *)

Section Queries.

Context {env : Env}.

Lemma dict_get_set_same {A : Type} (d : list (string * A)) (k : string) (v : A) :
  dict_get (dict_set d k v) k = Some v.
Proof.
  induction d as [|[k' v'] d IH]; simpl.
  - rewrite String.eqb_refl. reflexivity.
  - destruct (String.eqb k' k) eqn:E; simpl.
    + rewrite String.eqb_refl. reflexivity.
    + rewrite E. exact IH.
Qed.

Lemma truthy_PStr (s : string) : s <> "" -> truthy (PStr s) = true.
Proof.
  intros Hs. simpl. destruct (String.eqb s "") eqn:E; [|reflexivity].
  apply String.eqb_eq in E. contradiction.
Qed.

(** Each query, called with a token in memory, sends one [GET] and
    returns what [parse_result] makes of the answer. *)
Lemma get_user_illustrations_result (user : pyval) (per_page page : option Z)
    (st : State) :
  truthy (access_token (self st)) = true ->
  let out := get_user_illustrations user per_page page st in
  exists rq : request,
    req_method rq = "GET" /\
    net_log (world (snd out)) = (net_log (world st) ++ [rq])%list /\
    fst out = match http (net_log (world st)) rq with
              | Ok r => parse_result r
              | Raise e => Raise e
              end.
Proof.
  intros Ht out. subst out. unfold get_user_illustrations.
  erewrite bind_Ok by (apply login_required_valid; exact Ht).
  rewrite bind_request_GET. eexists. split; [|split].
  2: destruct (http _ _) as [r|e]; reflexivity.
  - reflexivity.
  - destruct (http _ _) as [r|e]; reflexivity.
Qed.

Lemma get_illustration_result (illustration_id : pyval) (st : State) :
  truthy (access_token (self st)) = true ->
  let out := get_illustration illustration_id st in
  exists rq : request,
    req_method rq = "GET" /\
    net_log (world (snd out)) = (net_log (world st) ++ [rq])%list /\
    fst out = match http (net_log (world st)) rq with
              | Ok r => parse_result r
              | Raise e => Raise e
              end.
Proof.
  intros Ht out. subst out. unfold get_illustration.
  erewrite bind_Ok by (apply login_required_valid; exact Ht).
  rewrite bind_request_GET. eexists. split; [|split].
  2: destruct (http _ _) as [r|e]; reflexivity.
  - reflexivity.
  - destruct (http _ _) as [r|e]; reflexivity.
Qed.

Lemma get_ranking_illustrations_result (mode date : option string)
    (per_page page : option Z) (st : State) :
  truthy (access_token (self st)) = true ->
  let out := get_ranking_illustrations mode date per_page page st in
  exists rq : request,
    req_method rq = "GET" /\
    net_log (world (snd out)) = (net_log (world st) ++ [rq])%list /\
    fst out = match http (net_log (world st)) rq with
              | Ok r => parse_result r
              | Raise e => Raise e
              end.
Proof.
  intros Ht out. subst out. unfold get_ranking_illustrations.
  erewrite bind_Ok by (apply login_required_valid; exact Ht).
  rewrite bind_request_GET. eexists. split; [|split].
  2: destruct (http _ _) as [r|e]; reflexivity.
  - reflexivity.
  - destruct (http _ _) as [r|e]; reflexivity.
Qed.

End Queries.

(** ** The cookie pattern *)

Lemma lazy_group_semicolon_app (v rest : string) :
  (forall c, In c (list_ascii_of_string v) -> c <> semicolon /\ c <> newline) ->
  lazy_group_semicolon (v ++ String semicolon rest) = Some v.
Proof.
  induction v as [|c v IH]; simpl; intros Hv.
  - reflexivity.
  - destruct (Hv c (or_introl eq_refl)) as [H1 H2].
    apply Ascii.eqb_neq in H1, H2. rewrite H1, H2.
    rewrite IH; [reflexivity|]. intros c' Hc'. apply Hv. now right.
Qed.

(** A header that begins with [PHPSESSID=v;] yields [v]. *)
Lemma re_search_PHPSESSID_prefix (v rest : string) :
  (forall c, In c (list_ascii_of_string v) -> c <> semicolon /\ c <> newline) ->
  re_search_PHPSESSID ("PHPSESSID=" ++ v ++ String semicolon rest) = Some v.
Proof.
  intros Hv. cbn -[lazy_group_semicolon].
  rewrite lazy_group_semicolon_app by exact Hv. reflexivity.
Qed.

(** ** The codec of [MiniJson] on session records *)

Section CodecFacts.

Import MiniJson.

Lemma string_app_assoc (x y z : string) : (x ++ y) ++ z = x ++ (y ++ z).
Proof. induction x as [|c x IH]; simpl; [reflexivity | now rewrite IH]. Qed.

(** One escaped character in front of [t] is read as that character. *)
Lemma parse_string_body_char (c : ascii) (t : string) :
  parse_string_body (escape_char c ++ t)
  = match parse_string_body t with
    | Some (u, rest) => Some (String c u, rest)
    | None => None
    end.
Proof.
  destruct c as [[] [] [] [] [] [] [] []]; reflexivity.
Qed.

(** The text of a string literal is read back as the string. *)
Lemma parse_string_body_escape (s rest : string) :
  parse_string_body (escape s ++ String quote rest) = Some (s, rest).
Proof.
  induction s as [|c s IH].
  - reflexivity.
  - cbn [escape]. rewrite string_app_assoc, parse_string_body_char, IH.
    reflexivity.
Qed.

(** A string literal followed by [t]. *)
Lemma dump_str_app (k t : string) :
  dump_str k ++ t = String quote (escape k ++ String quote t).
Proof.
  unfold dump_str. cbn [append]. rewrite string_app_assoc. reflexivity.
Qed.

Lemma parse_value_plain (f : nat) (v : pyval) (rest : string) :
  f <> O ->
  plain v = true ->
  parse_value f (dumps v ++ rest) = Some (v, rest).
Proof.
  intros Hf. destruct f as [|f]; [contradiction|].
  destruct v; try discriminate; intros _.
  - reflexivity.
  - cbn [dumps]. rewrite dump_str_app.
    cbn -[parse_string_body escape].
    rewrite parse_string_body_escape. reflexivity.
Qed.

Lemma skip_ws_dumps_plain (v : pyval) (t : string) :
  plain v = true -> skip_ws (dumps v ++ t) = dumps v ++ t.
Proof. destruct v; try discriminate; reflexivity. Qed.

Lemma skip_ws_other (c : ascii) (t : string) :
  is_ws c = false -> skip_ws (String c t) = String c t.
Proof. intros H. cbn [skip_ws]. rewrite H. reflexivity. Qed.

Lemma skip_ws_space (t : string) : skip_ws (String " " t) = skip_ws t.
Proof. reflexivity. Qed.

(** The last member of an object and its closing brace. *)
Lemma parse_members_last (f : nat) (k : string) (v : pyval) (rest : string) :
  f <> O ->
  plain v = true ->
  parse_members (S f) (member_text k v (String "}" rest))
  = Some ([(k, v)], rest).
Proof.
  intros Hf Hv. unfold member_text. cbn [parse_members].
  rewrite Ascii.eqb_refl, parse_string_body_escape.
  rewrite skip_ws_other by reflexivity. cbv beta iota.
  rewrite Ascii.eqb_refl, skip_ws_space, (skip_ws_dumps_plain v) by exact Hv.
  rewrite (parse_value_plain f v) by assumption.
  reflexivity.
Qed.

(** A member followed by a comma and further members. *)
Lemma parse_members_more (f : nat) (k : string) (v : pyval) (t rest : string)
    (d : list (string * pyval)) :
  f <> O ->
  plain v = true ->
  skip_ws t = t ->
  parse_members f t = Some (d, rest) ->
  parse_members (S f) (member_text k v (String "," (String " " t)))
  = Some ((k, v) :: d, rest).
Proof.
  intros Hf Hv Ht Hd. unfold member_text. cbn [parse_members].
  rewrite Ascii.eqb_refl, parse_string_body_escape.
  rewrite skip_ws_other by reflexivity. cbv beta iota.
  rewrite Ascii.eqb_refl, skip_ws_space, (skip_ws_dumps_plain v) by exact Hv.
  rewrite (parse_value_plain f v) by assumption.
  rewrite skip_ws_other by reflexivity. cbv beta iota.
  rewrite Ascii.eqb_refl, skip_ws_space, Ht, Hd.
  reflexivity.
Qed.

Lemma skip_ws_member_text (k : string) (v : pyval) (t : string) :
  skip_ws (member_text k v t) = member_text k v t.
Proof. reflexivity. Qed.

(** The dump of a session record, member by member. *)
Lemma dumps_session_record (a u s : pyval) :
  dumps (PDict [("access_token", a); ("user_id", u); ("session_id", s)])
  = String "{"
      (member_text "access_token" a
         (String "," (String " "
            (member_text "user_id" u
               (String "," (String " "
                  (member_text "session_id" s (String "}" "")))))))).
Proof.
  cbn [dumps map join]. unfold member_text.
  rewrite !string_app_assoc, !dump_str_app. reflexivity.
Qed.

(** The dump of a session record whose three values are plain is read back
    as that record. *)
Lemma loads_dumps_session_record (a u s : pyval) :
  plain a = true -> plain u = true -> plain s = true ->
  loads (dumps (PDict [("access_token", a); ("user_id", u); ("session_id", s)]))
  = Some (PDict [("access_token", a); ("user_id", u); ("session_id", s)]).
Proof.
  intros Ha Hu Hs. rewrite dumps_session_record. unfold loads.
  rewrite skip_ws_other by reflexivity.
  set (members := member_text "access_token" a _).
  assert (Hm : forall f, parse_members (4 + f) members
               = Some ([("access_token", a); ("user_id", u); ("session_id", s)],
                       "")).
  { intros f. subst members.
    apply parse_members_more;
      [discriminate | exact Ha | apply skip_ws_member_text |].
    apply parse_members_more;
      [discriminate | exact Hu | apply skip_ws_member_text |].
    apply parse_members_last; [discriminate | exact Hs]. }
  assert (Hfuel : exists n,
             (2 * String.length (String "{" members) + 2 = S (4 + n))%nat).
  { subst members. unfold member_text. cbn [String.length].
    match goal with
    | |- exists n, (2 * S (S ?m) + 2 = _)%nat => exists (2 * m + 1)%nat; lia
    end. }
  destruct Hfuel as [n ->]. cbn [parse_value].
  change (Ascii.eqb "{" quote) with false.
  change (Ascii.eqb "{" "[") with false.
  rewrite Ascii.eqb_refl. cbv beta iota.
  assert (Hw : skip_ws members = members) by apply skip_ws_member_text.
  rewrite Hw. unfold members at 1. unfold member_text at 1.
  change (Ascii.eqb quote "}") with false. cbv beta iota.
  fold (member_text "access_token" a
          (String "," (String " "
            (member_text "user_id" u
               (String "," (String " "
                  (member_text "session_id" s (String "}" "")))))))).
  fold members. rewrite Hm. reflexivity.
Qed.

(** For the environment of [MiniJson], whatever the server: a record of
    plain values saved by [save_session] is loaded back by [load_session],
    in any client object, with the same three values. *)
Lemma save_load_roundtrip_plain (server : list request -> request -> Res response)
    (st : State) (other : PixivApi) :
  plain (access_token (self st)) = true ->
  plain (user_id (self st)) = true ->
  plain (session_id (self st)) = true ->
  let saved := snd (save_session (env := mini_env server) st) in
  load_session (env := mini_env server) {| self := other; world := world saved |}
  = (Ok (session_data (self st)),
     {| self := {| session_id := session_id (self st);
                   access_token := access_token (self st);
                   session := session other;
                   user_id := user_id (self st);
                   timeout := timeout other |};
        world := world saved |}).
Proof.
  intros Ha Hu Hs saved. subst saved. rewrite save_session_writes.
  cbn [snd world].
  erewrite load_session_complete;
    first [ reflexivity
          | exact (loads_dumps_session_record _ _ _ Ha Hu Hs) ].
Qed.

End CodecFacts.

(** ** The properties of the specification *)

(** C1 (fails on the code).  The specification wants [load_session] to
    answer "no session" for every malformed session file, a file that is
    valid JSON but lacks a required key included.  On the file
    [{"access_token": "tok"}] the [KeyError] for [user_id] is swallowed by
    the [return] of the [finally] clause, which returns the decoded dict:
    the result is not [None], it is true as a condition, the token has
    already been assigned while [user_id] and [session_id] keep their
    defaults, and [__init__] goes on to probe with this partial record and,
    the probe answered with success, returns without any login. *)
Theorem load_session_partial_record_kept :
  let env0 := env_probe_ok in
  let st := state_of PixivApi_defaults (Some partial_file) ["name"; "secret"] in
  let out := load_session (env := env0) st in
  let started := __init__ (env := env0) st in
  fst out = Ok (PDict [("access_token", PStr "tok")]) /\
  fst out <> Ok PNone /\
  truthy (PDict [("access_token", PStr "tok")]) = true /\
  access_token (self (snd out)) = PStr "tok" /\
  user_id (self (snd out)) = PStr "" /\
  session_id (self (snd out)) = PNone /\
  fst started = Ok tt /\
  access_token (self (snd started)) = PStr "tok" /\
  session_id (self (snd started)) = PNone /\
  tty_in (world (snd started)) = ["name"; "secret"] /\
  map req_method (net_log (world (snd started))) = ["GET"].
Proof.
  cbv zeta. repeat split; try reflexivity. discriminate.
Qed.

Section Claims.

Context {env : Env}.

(** C2.  Whatever the status and the body of the probe's answer,
    [check_expired] returns a boolean; it is [True] exactly when the
    status is 200, 301 or 302 and the body decodes to JSON whose [status]
    is ['success']; when it is [False] the token in memory is [None]. *)
Theorem check_expired_classification (st : State) (r : response) :
  http (net_log (world st)) (probe_request (self st)) = Ok r ->
  exists valid : bool,
    fst (check_expired st) = Ok valid /\
    (valid = true <->
     (status_code r = 200 \/ status_code r = 301 \/ status_code r = 302) /\
     exists body, json_loads (text r) = Some body /\
                  getitem body "status" = Ok (PStr "success")) /\
    (valid = false ->
     access_token (self (snd (check_expired st))) = PNone).
Proof.
  intros Hr.
  destruct (check_expired_answered st r Hr) as (st' & E & Ht & _).
  exists (verdict r). rewrite E. cbn [fst snd].
  split; [reflexivity|]. split; [apply verdict_true|].
  intros Hv. rewrite Ht, Hv. reflexivity.
Qed.

(** C4.  When the login exchange is answered with a status other than
    200, 301 and 302, [login] raises the error that carries this status
    (a [RuntimeError] whose arguments are the message and the status
    code); the session file and the credentials in memory are as
    before. *)
Theorem login_rejected_status (st : State) (username password : string)
    (r : response) :
  http (net_log (world st)) (login_request (self st) username password) = Ok r ->
  status_code r <> 200 -> status_code r <> 301 -> status_code r <> 302 ->
  let out := login username password st in
  fst out = Raise (RuntimeError [PStr "[ERROR] connection failed!";
                                 PInt (status_code r)]) /\
  fs_session (world (snd out)) = fs_session (world st) /\
  access_token (self (snd out)) = access_token (self st) /\
  user_id (self (snd out)) = user_id (self st) /\
  session_id (self (snd out)) = session_id (self st).
Proof.
  intros Hr H1 H2 H3 out. subst out.
  rewrite (login_bad_status st username password r Hr
             (ok_status_false _ H1 H2 H3)).
  repeat split; reflexivity.
Qed.

(** C5.  Provided the JSON library reads back the dict it wrote,
    [save_session] followed by [load_session], in the same or in another
    client object, returns the record that was saved and leaves the
    client with the same [access_token], [user_id] and [session_id]. *)
Theorem save_load_roundtrip (st : State) (other : PixivApi) :
  json_loads (json_dumps (session_data (self st)))
  = Some (session_data (self st)) ->
  let saved := snd (save_session st) in
  let out := load_session {| self := other; world := world saved |} in
  fst out = Ok (session_data (self st)) /\
  access_token (self (snd out)) = access_token (self st) /\
  user_id (self (snd out)) = user_id (self st) /\
  session_id (self (snd out)) = session_id (self st) /\
  session_data (self (snd out)) = session_data (self st).
Proof.
  intros Hj saved out. subst out saved. rewrite save_session_writes.
  cbn [snd world].
  erewrite load_session_complete by first [exact Hj | reflexivity].
  repeat split; reflexivity.
Qed.

(** C6.  For a query answer whose body is JSON with a [status]:
    when the status is ['success'], [parse_result] returns the value under
    [response] as it is; when it is anything else, [parse_result] raises
    [Pixiv_Get_Error] with the URL; and a payload is returned only in the
    first case. *)
Theorem parse_result_envelope (r : response) (data status : pyval) :
  json_loads (text r) = Some data ->
  getitem data "status" = Ok status ->
  (status = PStr "success" -> parse_result r = getitem data "response") /\
  (status <> PStr "success" ->
   parse_result r = Raise (Pixiv_Get_Error (url r))) /\
  (forall payload, parse_result r = Ok payload ->
                   status = PStr "success" /\
                   getitem data "response" = Ok payload).
Proof.
  intros Hj Hs. split; [|split].
  - intros ->. unfold parse_result. rewrite Hj, Hs. reflexivity.
  - intros Hne. exact (parse_result_failure r data status Hj Hs Hne).
  - intros payload Hp.
    destruct (parse_result_Ok_inv r payload Hp) as (data' & Hj' & Hs' & Hp').
    rewrite Hj in Hj'. inversion Hj'. subst data'.
    rewrite Hs in Hs'. inversion Hs'. auto.
Qed.

(** C7.  Once [login_required] has returned, [get_ranking_illustrations]
    sends exactly one request, a [GET] of the ranking; its query
    parameters hold [date] with the given value when a non-empty date is
    passed, and have no [date] key when the argument is left out (or is
    the empty string). *)
Theorem ranking_date_parameter (mode date : option string)
    (per_page page : option Z) (st st1 : State) :
  login_required st = (Ok tt, st1) ->
  exists params : list (string * pyval),
    net_log (world (snd (get_ranking_illustrations mode date per_page page st)))
    = (net_log (world st1)
       ++ [get_request (self st1)
             "https://public-api.secure.pixiv.net/v1/ranking/all"
             (Some params)])%list /\
    (forall d, date = Some d -> d <> "" ->
               dict_get params "date" = Some (PStr d)) /\
    (date = None \/ date = Some "" -> dict_get params "date" = None).
Proof.
  intros Hl. unfold get_ranking_illustrations.
  erewrite bind_Ok by exact Hl.
  rewrite bind_request_GET.
  eexists. split; [destruct (http _ _) as [r|e]; reflexivity|].
  split.
  - intros d -> Hd. simpl default. rewrite (truthy_PStr d Hd).
    apply dict_get_set_same.
  - intros [-> | ->]; reflexivity.
Qed.

(** C8.  With an access token in memory, any number of calls of
    [login_required] in a row returns normally and leaves the whole state
    as it was: the client's attributes, the session file, the terminal
    and the list of requests sent, so no request goes out. *)
Theorem ensure_ready_idempotent (n : nat) (st : State) :
  truthy (access_token (self st)) = true ->
  repeat_call n login_required st = (Ok tt, st) /\
  net_log (world (snd (repeat_call n login_required st)))
  = net_log (world st).
Proof.
  intros Ht. rewrite (repeat_login_required_valid n st Ht).
  split; reflexivity.
Qed.

(** C9.  Two runs of [login] from the same state that differ only in the
    password and get the same answer from the service end with the same
    result, the same attributes and the same session file; [login] prints
    nothing; and the file is either untouched or the dump of the three
    attributes [access_token], [user_id], [session_id]. *)
Theorem login_password_not_persisted (st : State) (username p1 p2 : string) :
  http (net_log (world st)) (login_request (self st) username p1)
  = http (net_log (world st)) (login_request (self st) username p2) ->
  let out1 := login username p1 st in
  let out2 := login username p2 st in
  fst out1 = fst out2 /\
  self (snd out1) = self (snd out2) /\
  fs_session (world (snd out1)) = fs_session (world (snd out2)) /\
  tty_out (world (snd out1)) = tty_out (world st) /\
  tty_out (world (snd out2)) = tty_out (world st) /\
  (fs_session (world (snd out1)) = fs_session (world st) \/
   fs_session (world (snd out1))
   = Some (json_dumps (session_data (self (snd out1))))).
Proof.
  intros Hsame. unfold login. rewrite !bind_request_POST.
  unfold login_request in Hsame. rewrite <- Hsame.
  destruct (http (net_log (world st)) _) as [r|e]; cbn.
  2: { repeat split; auto. }
  unfold save_session.
  destruct (ok_status (status_code r)); [|repeat split; auto].
  destruct (json_loads (text r)) as [respond|]; unfold_monad; cbn -[getitem];
    [|repeat split; auto].
  destruct (getitem respond "response") as [resp|]; cbn -[getitem];
    [|repeat split; auto].
  destruct (getitem resp "access_token") as [tok|]; cbn -[getitem];
    [|repeat split; auto].
  destruct (getitem resp "user") as [user|]; cbn -[getitem];
    [|repeat split; auto].
  destruct (getitem user "id") as [id|]; cbn -[header_get];
    [|repeat split; auto].
  destruct (header_get (headers r) "Set-Cookie") as [cookie|];
    cbn -[re_search_PHPSESSID]; [|repeat split; auto].
  destruct (re_search_PHPSESSID cookie) as [sid|]; cbn; repeat split; auto.
Qed.

(** C10.  When [check_expired] returns [False], the token in memory is
    [None], while [user_id], [session_id] and the timeout in memory and
    the session file are what they were before the call. *)
Theorem check_expired_clears_only_token (st : State) :
  fst (check_expired st) = Ok false ->
  let st' := snd (check_expired st) in
  access_token (self st') = PNone /\
  user_id (self st') = user_id (self st) /\
  session_id (self st') = session_id (self st) /\
  timeout (self st') = timeout (self st) /\
  fs_session (world st') = fs_session (world st).
Proof.
  intros Hf st'. subst st'.
  destruct (http (net_log (world st)) (probe_request (self st))) as [r|e] eqn:Hr.
  - destruct (check_expired_answered st r Hr)
      as (st' & E & Ht & Hu & Hs & Hto & Hfs & _).
    rewrite E in *. cbn [fst snd] in *. inversion Hf as [Hv].
    rewrite Hv in Ht. auto.
  - exfalso. revert Hf. unfold check_expired.
    erewrite bind_Ok by reflexivity.
    rewrite bind_request_GET. cbn [self world net_log].
    unfold probe_request in Hr. rewrite Hr. discriminate.
Qed.

End Claims.

(** C3 (fails on the code).  The specification, like the docstring of
    [login] ("Return: a session object"), has [login] return the credential
    record.  On the exchange of the specification's example (status 200,
    cookie [PHPSESSID=abc123; Path=/], token ["tok"], user id 42) the
    method assigns the three attributes and writes them to the session
    file, as specified, but it has no [return] statement: its value is
    [None], not the record. *)
Theorem login_example_returns_None :
  let env0 := env_login_ok in
  let out := login (env := env0) "name" "secret"
               st_fresh in
  fst out = Ok PNone /\
  access_token (self (snd out)) = PStr "tok" /\
  user_id (self (snd out)) = PStr "42" /\
  session_id (self (snd out)) = PStr "abc123" /\
  fs_session (world (snd out))
  = Some (dq "{'access_token': 'tok', 'user_id': '42', 'session_id': 'abc123'}").
Proof.
  cbv zeta. repeat split; reflexivity.
Qed.

(** ** The theorems at concrete inputs *)

Lemma check_expired_classification_witness :
  http (Env := env_probe_ok) (net_log (world st_logged_in))
    (probe_request (env := env_probe_ok) (self st_logged_in))
  = Ok probe_ok_response /\
  exists valid : bool,
    fst (check_expired (env := env_probe_ok) st_logged_in) = Ok valid /\
    (valid = true <->
     (status_code probe_ok_response = 200 \/ status_code probe_ok_response = 301
      \/ status_code probe_ok_response = 302) /\
     exists body, json_loads (Env := env_probe_ok) (text probe_ok_response)
                  = Some body /\
                  getitem body "status" = Ok (PStr "success")) /\
    (valid = false ->
     access_token (self (snd (check_expired (env := env_probe_ok) st_logged_in)))
     = PNone).
Proof.
  split; [reflexivity|].
  apply (check_expired_classification (env := env_probe_ok)
           st_logged_in probe_ok_response).
  reflexivity.
Defined.

Lemma login_rejected_status_witness :
  http (Env := env_forbidden) (net_log (world st_fresh))
    (login_request (env := env_forbidden) (self st_fresh) "name" "secret")
  = Ok forbidden_response /\
  status_code forbidden_response <> 200 /\
  status_code forbidden_response <> 301 /\
  status_code forbidden_response <> 302 /\
  fst (login (env := env_forbidden) "name" "secret" st_fresh)
  = Raise (RuntimeError [PStr "[ERROR] connection failed!"; PInt 403]) /\
  fs_session (world (snd (login (env := env_forbidden) "name" "secret" st_fresh)))
  = None.
Proof.
  assert (H1 : status_code forbidden_response <> 200) by (simpl; lia).
  assert (H2 : status_code forbidden_response <> 301) by (simpl; lia).
  assert (H3 : status_code forbidden_response <> 302) by (simpl; lia).
  destruct (login_rejected_status (env := env_forbidden) st_fresh
              "name" "secret" forbidden_response eq_refl H1 H2 H3)
    as (Hraise & Hfile & _).
  repeat split; trivial.
Defined.

Lemma save_load_roundtrip_witness :
  json_loads (Env := env_probe_ok)
    (json_dumps (Env := env_probe_ok) (session_data (self st_logged_in)))
  = Some (session_data (self st_logged_in)) /\
  fst (load_session (env := env_probe_ok)
         {| self := PixivApi_defaults;
            world := world (snd (save_session (env := env_probe_ok)
                                   st_logged_in)) |})
  = Ok (PDict [("access_token", PStr "tok"); ("user_id", PStr "42");
               ("session_id", PStr "abc123")]).
Proof.
  split; [reflexivity|].
  apply (save_load_roundtrip (env := env_probe_ok) st_logged_in
           PixivApi_defaults).
  reflexivity.
Defined.

Lemma parse_result_envelope_witness :
  json_loads (Env := env_probe_ok) (text query_ok_response)
  = Some (PDict [("status", PStr "success");
                 ("response", PList [PDict [("id", PInt 1)]])]) /\
  parse_result (env := env_probe_ok) query_ok_response
  = Ok (PList [PDict [("id", PInt 1)]]) /\
  parse_result (env := env_probe_ok) query_failure_response
  = Raise (Pixiv_Get_Error "https://public-api.secure.pixiv.net/v1/works/1.json").
Proof.
  split; [reflexivity|]. split.
  - apply (parse_result_envelope (env := env_probe_ok) query_ok_response
             (PDict [("status", PStr "success");
                     ("response", PList [PDict [("id", PInt 1)]])])
             (PStr "success") eq_refl eq_refl).
    reflexivity.
  - apply (parse_result_envelope (env := env_probe_ok) query_failure_response
             (PDict [("status", PStr "failure")])
             (PStr "failure") eq_refl eq_refl).
    discriminate.
Defined.

Lemma ranking_date_parameter_witness :
  login_required (env := env_probe_ok) st_logged_in = (Ok tt, st_logged_in) /\
  exists params : list (string * pyval),
    net_log (world (snd (get_ranking_illustrations (env := env_probe_ok)
                           None (Some "2015-04-01") None None st_logged_in)))
    = [get_request (env := env_probe_ok) logged_in_client
         "https://public-api.secure.pixiv.net/v1/ranking/all" (Some params)] /\
    dict_get params "date" = Some (PStr "2015-04-01").
Proof.
  split; [reflexivity|].
  destruct (ranking_date_parameter (env := env_probe_ok)
              None (Some "2015-04-01") None None st_logged_in st_logged_in
              eq_refl) as (params & Hlog & Hdate & _).
  exists params. split; [exact Hlog|].
  apply (Hdate "2015-04-01" eq_refl). discriminate.
Defined.

Lemma ensure_ready_idempotent_witness :
  truthy (access_token (self st_logged_in)) = true /\
  repeat_call 3 (login_required (env := env_forbidden)) st_logged_in
  = (Ok tt, st_logged_in) /\
  net_log (world (snd (repeat_call 3 (login_required (env := env_forbidden))
                         st_logged_in)))
  = net_log (world st_logged_in).
Proof.
  split; [reflexivity|].
  apply (ensure_ready_idempotent (env := env_forbidden) 3 st_logged_in).
  reflexivity.
Defined.

Lemma login_password_not_persisted_witness :
  http (Env := env_login_ok) (net_log (world st_fresh))
    (login_request (env := env_login_ok) (self st_fresh) "name" "secret")
  = http (Env := env_login_ok) (net_log (world st_fresh))
      (login_request (env := env_login_ok) (self st_fresh) "name" "hunter2") /\
  fs_session (world (snd (login (env := env_login_ok) "name" "secret" st_fresh)))
  = fs_session (world (snd (login (env := env_login_ok) "name" "hunter2" st_fresh))).
Proof.
  split; [reflexivity|].
  apply (login_password_not_persisted (env := env_login_ok) st_fresh
           "name" "secret" "hunter2" eq_refl).
Defined.

Lemma check_expired_clears_only_token_witness :
  fst (check_expired (env := env_forbidden) st_logged_in) = Ok false /\
  access_token (self (snd (check_expired (env := env_forbidden) st_logged_in)))
  = PNone /\
  user_id (self (snd (check_expired (env := env_forbidden) st_logged_in)))
  = PStr "42" /\
  session_id (self (snd (check_expired (env := env_forbidden) st_logged_in)))
  = PStr "abc123".
Proof.
  split; [reflexivity|].
  destruct (check_expired_clears_only_token (env := env_forbidden)
              st_logged_in eq_refl) as (Ht & Hu & Hs & _).
  repeat split; assumption.
Defined.

(** ** Further properties of the session store *)

Section StoreMore.

Context {env : Env}.


(** X2.  Whatever the file holds, [load_session] touches neither the file,
    the terminal nor the network, and leaves the transport and the timeout
    of the client alone: only the three credential attributes can change. *)
Theorem load_session_frame (st : State) :
  world (snd (load_session st)) = world st /\
  session (self (snd (load_session st))) = session (self st) /\
  timeout (self (snd (load_session st))) = timeout (self st).
Proof.
  unfold load_session.
  destruct (fs_session (world st)) as [content|] eqn:Hf.
  - erewrite bind_Ok by (apply read_session_file_Some; exact Hf).
    destruct (json_loads content) as [v|]; unfold finally_return.
    + unfold_monad. cbn -[getitem].
      destruct (getitem v "access_token"); cbn -[getitem]; [|auto].
      destruct (getitem v "user_id"); cbn -[getitem]; [|auto].
      destruct (getitem v "session_id"); cbn; auto.
    + cbn. auto.
  - erewrite bind_Raise; [cbn; auto|].
    unfold read_session_file, bind, get_world, raise. rewrite Hf. reflexivity.
Qed.

(** X3.  A session file whose content does not decode as JSON (empty,
    truncated, not JSON at all) makes [load_session] return [None] with the
    whole state as it was. *)
Theorem load_session_undecodable_is_None (st : State) (content : string) :
  fs_session (world st) = Some content ->
  json_loads content = None ->
  load_session st = (Ok PNone, st).
Proof.
  intros Hf Hj. unfold load_session.
  erewrite bind_Ok by (apply read_session_file_Some; exact Hf).
  rewrite Hj. unfold finally_return, raise.
  destruct st as [o w]. reflexivity.
Qed.

(** X4.  When the file decodes to a dict that has the keys [access_token],
    [user_id] and [session_id], in any order and among any other keys,
    [load_session] returns that dict and the client holds the three values
    of the file; its transport and timeout are kept. *)
Theorem load_session_takes_over_record (st : State) (content : string)
    (d : list (string * pyval)) (a u s : pyval) :
  fs_session (world st) = Some content ->
  json_loads content = Some (PDict d) ->
  dict_get d "access_token" = Some a ->
  dict_get d "user_id" = Some u ->
  dict_get d "session_id" = Some s ->
  load_session st
  = (Ok (PDict d),
     {| self := {| session_id := s; access_token := a;
                   session := session (self st); user_id := u;
                   timeout := timeout (self st) |};
        world := world st |}).
Proof.
  intros Hf Hj Ha Hu Hs. unfold load_session.
  erewrite bind_Ok by (apply read_session_file_Some; exact Hf).
  rewrite Hj. unfold finally_return, getitem.
  rewrite Ha, Hu, Hs. reflexivity.
Qed.

(** X5.  The three assignments of [load_session] happen in the order
    [access_token], [user_id], [session_id] and stop at the first missing
    key without being undone: a dict with a token but no [user_id] leaves
    the client with the file's token and its old [user_id] and
    [session_id], and is returned as it is. *)
Theorem load_session_stops_at_missing_key (st : State) (content : string)
    (d : list (string * pyval)) (a : pyval) :
  fs_session (world st) = Some content ->
  json_loads content = Some (PDict d) ->
  dict_get d "access_token" = Some a ->
  dict_get d "user_id" = None ->
  load_session st
  = (Ok (PDict d),
     {| self := {| session_id := session_id (self st); access_token := a;
                   session := session (self st); user_id := user_id (self st);
                   timeout := timeout (self st) |};
        world := world st |}).
Proof.
  intros Hf Hj Ha Hu. unfold load_session.
  erewrite bind_Ok by (apply read_session_file_Some; exact Hf).
  rewrite Hj. unfold finally_return, getitem.
  rewrite Ha, Hu. reflexivity.
Qed.

(** X6.  A file that decodes to JSON other than an object (an array, a
    string, a number, [null]) is returned as decoded and changes nothing:
    the [TypeError] of the first subscription is dropped. *)
Theorem load_session_not_an_object (st : State) (content : string) (v : pyval) :
  fs_session (world st) = Some content ->
  json_loads content = Some v ->
  (forall d, v <> PDict d) ->
  load_session st = (Ok v, st).
Proof.
  intros Hf Hj Hv. unfold load_session.
  erewrite bind_Ok by (apply read_session_file_Some; exact Hf).
  rewrite Hj. unfold finally_return.
  destruct st as [o w].
  destruct v; try reflexivity. exfalso. exact (Hv d eq_refl).
Qed.

End StoreMore.

(** ** Further properties of the request plumbing *)

Lemma dict_get_set_other {A : Type} (d : list (string * A)) (k k' : string) (v : A) :
  k <> k' -> dict_get (dict_set d k v) k' = dict_get d k'.
Proof.
  intros Hk. induction d as [|[k0 v0] d IH]; simpl.
  - destruct (String.eqb k k') eqn:E; [|reflexivity].
    apply String.eqb_eq in E. contradiction.
  - destruct (String.eqb k0 k) eqn:E; simpl.
    + apply String.eqb_eq in E. subst k0.
      destruct (String.eqb k k') eqn:E'; [|reflexivity].
      apply String.eqb_eq in E'. contradiction.
    + destruct (String.eqb k0 k'); [reflexivity | exact IH].
Qed.

Lemma dict_get_app_one {A : Type} (l : list (string * A)) (k0 k : string) (v0 : A) :
  dict_get (l ++ [(k0, v0)]) k
  = match dict_get l k with
    | Some v => Some v
    | None => if String.eqb k0 k then Some v0 else None
    end.
Proof.
  induction l as [|[k1 v1] l IH]; simpl.
  - reflexivity.
  - destruct (String.eqb k1 k); [reflexivity | exact IH].
Qed.

(** [d.update(e)] seen from a lookup: the last entry of [e] for the key
    wins, and a key that [e] does not mention keeps its value in [d]. *)
Lemma dict_get_update {A : Type} (e d : list (string * A)) (k : string) :
  dict_get (dict_update d e) k
  = match dict_get (rev e) k with
    | Some v => Some v
    | None => dict_get d k
    end.
Proof.
  unfold dict_update. revert d.
  induction e as [|[k0 v0] e IH]; intros d; simpl.
  - reflexivity.
  - rewrite IH, dict_get_app_one.
    destruct (dict_get (rev e) k) as [v|]; [reflexivity|].
    destruct (String.eqb k0 k) eqn:E.
    + apply String.eqb_eq in E. subst k0. apply dict_get_set_same.
    + apply dict_get_set_other. apply String.eqb_neq. exact E.
Qed.

Section PlumbingMore.

Context {env : Env}.


(** X8.  Headers passed by the caller are merged over the defaults: for
    every name, the last value the caller gives wins, and a name the caller
    does not give keeps the default of [_request_pixiv]. *)
Theorem caller_headers_override (o : PixivApi) (h : list (string * string))
    (name : string) :
  dict_get (pixiv_headers o (Some h)) name
  = match dict_get (rev h) name with
    | Some v => Some v
    | None => dict_get (pixiv_headers o None) name
    end.
Proof.
  unfold pixiv_headers. destruct h as [|kv h].
  - reflexivity.
  - apply dict_get_update.
Qed.

(** X9.  A method other than ['GET'] and ['POST'] raises
    [RuntimeError('Unknown Method:', method)] and sends nothing; the
    transport has been created all the same. *)
Theorem request_unknown_method (st : State) (method url : string)
    (h : option (list (string * string)))
    (params data : option (list (string * pyval))) :
  method <> "GET" -> method <> "POST" ->
  _request_pixiv method url h params data st
  = (Raise (RuntimeError [PStr "Unknown Method:"; PStr method]),
     {| self := with_transport (self st); world := world st |}).
Proof.
  intros Hg Hp. apply String.eqb_neq in Hg, Hp.
  destruct st as [o w]. unfold _request_pixiv. unfold_monad. cbn.
  destruct (session o) eqn:Hs; cbn; rewrite Hg, Hp; cbn.
  - reflexivity.
  - rewrite (with_transport_Session o Hs). reflexivity.
Qed.

(** X10.  [set_timeout] changes the timeout only, and the next request is
    sent with the new value: after [set_timeout(t)], [get_illustration]
    sends one request, with timeout [t] and the headers of the client's
    unchanged credentials. *)
Theorem set_timeout_applies_to_next_request (t : Z) (illustration_id : pyval)
    (st : State) :
  truthy (access_token (self st)) = true ->
  let st1 := snd (set_timeout t st) in
  let out := (set_timeout t ;; get_illustration illustration_id) st in
  access_token (self st1) = access_token (self st) /\
  user_id (self st1) = user_id (self st) /\
  session_id (self st1) = session_id (self st) /\
  world st1 = world st /\
  exists rq : request,
    net_log (world (snd out)) = (net_log (world st) ++ [rq])%list /\
    req_timeout rq = t /\
    req_headers rq = pixiv_headers (self st) None.
Proof.
  intros Ht st1 out. subst st1 out.
  repeat (split; [reflexivity|]).
  erewrite bind_Ok by reflexivity.
  unfold get_illustration.
  erewrite bind_Ok by (apply login_required_valid; exact Ht).
  rewrite bind_request_GET. eexists. split; [|split].
  - destruct (http _ _) as [r|e]; reflexivity.
  - reflexivity.
  - destruct st as [o w]. reflexivity.
Qed.

End PlumbingMore.

(** ** Further properties of the session validator *)

Section ValidatorMore.

Context {env : Env}.

(** [check_expired] when the transport raises: the exception goes through
    and the credentials and the file are as before. *)
Lemma check_expired_unanswered (st : State) (e : exn) :
  http (net_log (world st)) (probe_request (self st)) = Raise e ->
  exists st' : State,
    check_expired st = (Raise e, st') /\
    access_token (self st') = access_token (self st) /\
    user_id (self st') = user_id (self st) /\
    session_id (self st') = session_id (self st) /\
    timeout (self st') = timeout (self st) /\
    fs_session (world st') = fs_session (world st) /\
    net_log (world st')
    = (net_log (world st) ++ [probe_request (self st)])%list.
Proof.
  intros Hr. unfold check_expired.
  erewrite bind_Ok by reflexivity.
  rewrite bind_request_GET. cbn [self world net_log].
  unfold probe_request in Hr. rewrite Hr.
  eexists. repeat split; reflexivity.
Qed.

(** [check_expired] reads nothing from the terminal. *)
Lemma check_expired_tty_in (st : State) :
  tty_in (world (snd (check_expired st))) = tty_in (world st).
Proof.
  unfold check_expired.
  erewrite bind_Ok by reflexivity.
  rewrite bind_request_GET. cbn [self world net_log].
  destruct (http _ _) as [r|e]; [|reflexivity].
  destruct st as [o w]. cbn [self world] in *.
  destruct (ok_status (status_code r)).
  - destruct (json_loads (text r)) as [body|].
    + destruct (getitem body "status") as [status|e] eqn:Hg.
      * unfold_monad. cbn. rewrite Hg. cbn.
        destruct (eq_str status "success"); reflexivity.
      * unfold_monad. cbn. rewrite Hg. cbn.
        destruct (is_Exception e); reflexivity.
    + unfold_monad. reflexivity.
  - unfold_monad. reflexivity.
Qed.

(** X11.  [check_expired] makes exactly one round trip, whatever happens:
    the probe is the one request added to those sent, be the answer valid,
    expired, unreadable or an error of the transport. *)
Theorem check_expired_sends_one_probe (st : State) :
  net_log (world (snd (check_expired st)))
  = (net_log (world st) ++ [probe_request (self st)])%list.
Proof.
  destruct (http (net_log (world st)) (probe_request (self st))) as [r|e] eqn:Hr.
  - destruct (check_expired_answered st r Hr) as (st' & E & _ & _ & _ & _ & _ & Hl).
    rewrite E. exact Hl.
  - destruct (check_expired_unanswered st e Hr) as (st' & E & _ & _ & _ & _ & _ & Hl).
    rewrite E. exact Hl.
Qed.

(** X12.  When the transport raises during the probe, [check_expired]
    raises the same exception and does not clear the token: the three
    credential attributes and the session file are as before. *)
Theorem check_expired_transport_error (st : State) (e : exn) :
  http (net_log (world st)) (probe_request (self st)) = Raise e ->
  fst (check_expired st) = Raise e /\
  access_token (self (snd (check_expired st))) = access_token (self st) /\
  user_id (self (snd (check_expired st))) = user_id (self st) /\
  session_id (self (snd (check_expired st))) = session_id (self st) /\
  fs_session (world (snd (check_expired st))) = fs_session (world st).
Proof.
  intros Hr.
  destruct (check_expired_unanswered st e Hr)
    as (st' & E & Ha & Hu & Hs & _ & Hf & _).
  rewrite E. cbn [fst snd]. auto.
Qed.

(** X13.  When [check_expired] returns [True], the credentials in memory,
    the timeout and the session file are exactly as they were. *)
Theorem check_expired_valid_keeps_credentials (st : State) :
  fst (check_expired st) = Ok true ->
  access_token (self (snd (check_expired st))) = access_token (self st) /\
  user_id (self (snd (check_expired st))) = user_id (self st) /\
  session_id (self (snd (check_expired st))) = session_id (self st) /\
  timeout (self (snd (check_expired st))) = timeout (self st) /\
  fs_session (world (snd (check_expired st))) = fs_session (world st).
Proof.
  intros Hv.
  destruct (http (net_log (world st)) (probe_request (self st))) as [r|e] eqn:Hr.
  - destruct (check_expired_answered st r Hr)
      as (st' & E & Ha & Hu & Hs & Ht & Hf & _).
    rewrite E in *. cbn [fst snd] in *. inversion Hv as [Hv'].
    rewrite Hv' in Ha. auto.
  - destruct (check_expired_unanswered st e Hr) as (st' & E & _).
    rewrite E in Hv. discriminate.
Qed.

(** X14.  After [check_expired] has returned [False], the headers the
    client builds for its next request are the three fixed ones: the token
    found invalid is not presented again. *)
Theorem expired_session_sends_no_credentials (st : State) :
  fst (check_expired st) = Ok false ->
  pixiv_headers (self (snd (check_expired st))) None = fixed_headers.
Proof.
  intros Hv.
  destruct (http (net_log (world st)) (probe_request (self st))) as [r|e] eqn:Hr.
  - destruct (check_expired_answered st r Hr) as (st' & E & Ha & _).
    rewrite E in *. cbn [fst snd] in *. inversion Hv as [Hv'].
    rewrite Hv' in Ha. unfold pixiv_headers. rewrite Ha. reflexivity.
  - destruct (check_expired_unanswered st e Hr) as (st' & E & _).
    rewrite E in Hv. discriminate.
Qed.

End ValidatorMore.

(** ** Further properties of the authenticator *)

Section AuthenticatorMore.

Context {env : Env}.

(** What every run of [login] does to the world. *)
Lemma login_outcome (st : State) (username password : string) :
  let out := login username password st in
  net_log (world (snd out))
  = (net_log (world st) ++ [login_request (self st) username password])%list /\
  tty_in (world (snd out)) = tty_in (world st) /\
  tty_out (world (snd out)) = tty_out (world st) /\
  match fst out with
  | Ok v =>
      v = PNone /\
      fs_session (world (snd out))
      = Some (json_dumps (session_data (self (snd out))))
  | Raise _ => fs_session (world (snd out)) = fs_session (world st)
  end.
Proof.
  unfold login. rewrite !bind_request_POST. unfold login_request.
  destruct (http (net_log (world st)) _) as [r|e]; cbn.
  2: { repeat split; auto. }
  unfold save_session.
  destruct (ok_status (status_code r)); [|repeat split; auto].
  destruct (json_loads (text r)) as [respond|]; unfold_monad; cbn -[getitem];
    [|repeat split; auto].
  destruct (getitem respond "response") as [resp|]; cbn -[getitem];
    [|repeat split; auto].
  destruct (getitem resp "access_token") as [tok|]; cbn -[getitem];
    [|repeat split; auto].
  destruct (getitem resp "user") as [user|]; cbn -[getitem];
    [|repeat split; auto].
  destruct (getitem user "id") as [id|]; cbn -[header_get];
    [|repeat split; auto].
  destruct (header_get (headers r) "Set-Cookie") as [cookie|];
    cbn -[re_search_PHPSESSID]; [|repeat split; auto].
  destruct (re_search_PHPSESSID cookie) as [sid|]; cbn; repeat split; auto.
Qed.

(** X15.  When the exchange is answered with status 200, 301 or 302, a
    JSON body holding [response.access_token] and [response.user.id], and a
    [Set-Cookie] header in which the pattern [PHPSESSID=(.*?);] matches,
    [login] assigns the token, [str] of the id and the matched value to the
    client, writes the dump of these three to the session file, and returns
    [None]. *)
Theorem login_assigns_and_persists (st : State) (username password : string)
    (r : response) (respond resp tok user id : pyval) (cookie sid : string) :
  http (net_log (world st)) (login_request (self st) username password) = Ok r ->
  ok_status (status_code r) = true ->
  json_loads (text r) = Some respond ->
  getitem respond "response" = Ok resp ->
  getitem resp "access_token" = Ok tok ->
  getitem resp "user" = Ok user ->
  getitem user "id" = Ok id ->
  header_get (headers r) "Set-Cookie" = Some cookie ->
  re_search_PHPSESSID cookie = Some sid ->
  let o' := {| session_id := PStr sid; access_token := tok;
               session := Session; user_id := PStr (py_str id);
               timeout := timeout (self st) |} in
  login username password st
  = (Ok PNone,
     {| self := o';
        world := {| fs_session := Some (json_dumps (session_data o'));
                    net_log := net_log (world st)
                               ++ [login_request (self st) username password];
                    tty_in := tty_in (world st);
                    tty_out := tty_out (world st) |} |}).
Proof.
  intros Hr Hs Hj H1 H2 H3 H4 Hc Hre o'. unfold login.
  erewrite bind_Ok
    by (rewrite request_pixiv_POST; cbn zeta;
        unfold login_request in Hr; rewrite Hr; reflexivity).
  rewrite Hs, Hj. unfold save_session. unfold_monad.
  cbn -[getitem header_get re_search_PHPSESSID].
  rewrite H1. cbn -[getitem header_get re_search_PHPSESSID].
  rewrite H2. cbn -[getitem header_get re_search_PHPSESSID].
  rewrite H3. cbn -[getitem header_get re_search_PHPSESSID].
  rewrite H4. cbn -[getitem header_get re_search_PHPSESSID].
  rewrite Hc. cbn -[getitem header_get re_search_PHPSESSID].
  rewrite Hre. reflexivity.
Qed.

(** X16.  [login] sends exactly one request, the [POST] of the credentials,
    and writes the session file exactly when it returns: after a normal
    return the file is the dump of the three attributes now in memory, and
    after any exception the file is what it was. *)
Theorem login_persists_exactly_on_return (st : State) (username password : string) :
  net_log (world (snd (login username password st)))
  = (net_log (world st) ++ [login_request (self st) username password])%list /\
  match fst (login username password st) with
  | Ok v =>
      v = PNone /\
      fs_session (world (snd (login username password st)))
      = Some (json_dumps (session_data (self (snd (login username password st)))))
  | Raise _ =>
      fs_session (world (snd (login username password st)))
      = fs_session (world st)
  end.
Proof.
  destruct (login_outcome st username password) as (Hl & _ & _ & Hm).
  split; assumption.
Qed.

(** The state of [login] once the token and the user id are assigned and
    the cookie could not be read. *)
Lemma login_cookie_failure (st : State) (username password : string)
    (r : response) (respond resp tok user id : pyval) (e : exn) :
  http (net_log (world st)) (login_request (self st) username password) = Ok r ->
  ok_status (status_code r) = true ->
  json_loads (text r) = Some respond ->
  getitem respond "response" = Ok resp ->
  getitem resp "access_token" = Ok tok ->
  getitem resp "user" = Ok user ->
  getitem user "id" = Ok id ->
  match header_get (headers r) "Set-Cookie" with
  | Some cookie => re_search_PHPSESSID cookie = None /\ e = AttributeError
  | None => e = KeyError "set-cookie"
  end ->
  login username password st
  = (Raise e,
     {| self := {| session_id := session_id (self st); access_token := tok;
                   session := Session; user_id := PStr (py_str id);
                   timeout := timeout (self st) |};
        world := {| fs_session := fs_session (world st);
                    net_log := net_log (world st)
                               ++ [login_request (self st) username password];
                    tty_in := tty_in (world st);
                    tty_out := tty_out (world st) |} |}).
Proof.
  intros Hr Hs Hj H1 H2 H3 H4 Hc. unfold login.
  erewrite bind_Ok
    by (rewrite request_pixiv_POST; cbn zeta;
        unfold login_request in Hr; rewrite Hr; reflexivity).
  rewrite Hs, Hj. unfold save_session. unfold_monad.
  cbn -[getitem header_get re_search_PHPSESSID].
  rewrite H1. cbn -[getitem header_get re_search_PHPSESSID].
  rewrite H2. cbn -[getitem header_get re_search_PHPSESSID].
  rewrite H3. cbn -[getitem header_get re_search_PHPSESSID].
  rewrite H4. cbn -[getitem header_get re_search_PHPSESSID].
  destruct (header_get (headers r) "Set-Cookie") as [cookie|].
  - destruct Hc as [Hre ->]. cbn -[re_search_PHPSESSID]. rewrite Hre.
    reflexivity.
  - subst e. reflexivity.
Qed.

(** X17.  A good answer whose session cookie cannot be read makes [login]
    fail after the token and the user id have been assigned: without a
    [Set-Cookie] header it raises [KeyError('set-cookie')], with a header
    in which [PHPSESSID=...;] does not occur it raises [AttributeError];
    either way the client is left with the new token and user id and its
    old [session_id], and the session file is not written. *)
Theorem login_unreadable_cookie (st : State) (username password : string)
    (r : response) (respond resp tok user id : pyval) :
  http (net_log (world st)) (login_request (self st) username password) = Ok r ->
  ok_status (status_code r) = true ->
  json_loads (text r) = Some respond ->
  getitem respond "response" = Ok resp ->
  getitem resp "access_token" = Ok tok ->
  getitem resp "user" = Ok user ->
  getitem user "id" = Ok id ->
  match header_get (headers r) "Set-Cookie" with
  | Some cookie => re_search_PHPSESSID cookie = None
  | None => True
  end ->
  let out := login username password st in
  fst out = Raise (match header_get (headers r) "Set-Cookie" with
                   | Some _ => AttributeError
                   | None => KeyError "set-cookie"
                   end) /\
  access_token (self (snd out)) = tok /\
  user_id (self (snd out)) = PStr (py_str id) /\
  session_id (self (snd out)) = session_id (self st) /\
  fs_session (world (snd out)) = fs_session (world st).
Proof.
  intros Hr Hs Hj H1 H2 H3 H4 Hc out. subst out.
  erewrite login_cookie_failure; eauto.
  - repeat split; reflexivity.
  - destruct (header_get (headers r) "Set-Cookie"); auto.
Qed.

(** X18.  An answer with a good status whose body is not JSON makes
    [login] raise the decoding error before anything is assigned: the
    credentials in memory and the session file are as before. *)
Theorem login_undecodable_body (st : State) (username password : string)
    (r : response) :
  http (net_log (world st)) (login_request (self st) username password) = Ok r ->
  ok_status (status_code r) = true ->
  json_loads (text r) = None ->
  login username password st
  = (Raise JSONDecodeError,
     after_send st (login_request (self st) username password)).
Proof.
  intros Hr Hs Hj. unfold login.
  erewrite bind_Ok
    by (rewrite request_pixiv_POST; cbn zeta;
        unfold login_request in Hr; rewrite Hr; reflexivity).
  rewrite Hs, Hj. reflexivity.
Qed.

End AuthenticatorMore.

(** ** Further properties of the session manager *)

Section ManagerMore.

Context {env : Env}.

(** One call of [login_required], case by case. *)
Lemma login_required_rec_unfold (depth : nat) (st : State) :
  login_required_rec depth st
  = if truthy (access_token (self st)) then (Ok tt, st)
    else
      match tty_in (world st) with
      | [] =>
          (Raise EOFError,
           say "username:" (say ("Please login" ++ String newline "") st))
      | [_] =>
          (Raise EOFError,
           say "password:"
             (read_line (say "username:"
                (say ("Please login" ++ String newline "") st))))
      | username :: password :: _ =>
          match login username password (asked_credentials st) with
          | (Ok _, st2) => (Ok tt, st2)
          | (Raise e, st2) =>
              if is_Exception e then
                match tty_in (world st2) with
                | [] =>
                    (Raise EOFError,
                     say "Retry? y/n"
                       (say (str_exn e ++ String newline "")
                          (say ("Login failed:" ++ String newline "") st2)))
                | answer :: _ =>
                    if String.eqb answer "y" then
                      match depth with
                      | O => (Raise RecursionError, asked_retry (str_exn e) st2)
                      | S depth' =>
                          login_required_rec depth' (asked_retry (str_exn e) st2)
                      end
                    else (Raise SystemExit, asked_retry (str_exn e) st2)
                end
              else (Raise e, st2)
          end
      end.
Proof.
  destruct st as [o [f l i t]].
  destruct depth; cbn [login_required_rec];
    unfold bind at 1; unfold get_self at 1; cbn [self];
    (destruct (truthy (access_token o)); [reflexivity|]);
    cbn [negb];
    (destruct i as [|username [|password i]]; [reflexivity | reflexivity |]);
    unfold asked_credentials, asked_retry, say, read_line, getpass, input,
      print, write, try_except, bind, get_world, put_world, ret;
    cbn [self world fs_session net_log tty_in tty_out tl];
    destruct (login username password _) as [[v|e] [o2 [f2 l2 i2 t2]]];
    cbn [self world fs_session net_log tty_in tty_out tl];
    try reflexivity;
    (destruct (is_Exception e); [|reflexivity]);
    (destruct i2 as [|answer i2]; [reflexivity|]);
    cbn [self world fs_session net_log tty_in tty_out tl];
    destruct (String.eqb answer "y"); reflexivity.
Qed.


(** X20.  A login refused by the service (a status other than 200, 301,
    302) followed by any answer other than [y] to the retry question ends
    in [SystemExit]: one request was sent, three lines were read, and the
    credentials in memory and the session file are as before. *)
Theorem login_required_declined_retry (depth : nat) (st : State)
    (username password answer : string) (rest : list string) (r : response) :
  truthy (access_token (self st)) = false ->
  tty_in (world st) = username :: password :: answer :: rest ->
  http (net_log (world st)) (login_request (self st) username password) = Ok r ->
  ok_status (status_code r) = false ->
  answer <> "y" ->
  let out := login_required_rec depth st in
  fst out = Raise SystemExit /\
  tty_in (world (snd out)) = rest /\
  net_log (world (snd out))
  = (net_log (world st) ++ [login_request (self st) username password])%list /\
  access_token (self (snd out)) = access_token (self st) /\
  fs_session (world (snd out)) = fs_session (world st).
Proof.
  intros Ht Hin Hr Hs Hans out. subst out.
  destruct st as [o [f l i t]]. cbn [self world tty_in net_log fs_session] in *.
  subst i. rewrite login_required_rec_unfold. cbn [self world tty_in].
  rewrite Ht.
  match goal with
  | |- context [login username password ?s] =>
      rewrite (login_bad_status s username password r Hr Hs)
  end.
  cbn [is_Exception after_send world tty_in asked_credentials read_line say tl
       self fs_session net_log tty_out].
  apply String.eqb_neq in Hans. rewrite Hans.
  repeat split; reflexivity.
Qed.

(** X21.  When the first login succeeds, [login_required] returns with the
    state [login] left: two lines were read, and there is no retry
    question. *)
Theorem login_required_first_login (depth : nat) (st : State)
    (username password : string) (rest : list string) (v : pyval) :
  truthy (access_token (self st)) = false ->
  tty_in (world st) = username :: password :: rest ->
  fst (login username password (asked_credentials st)) = Ok v ->
  login_required_rec depth st
  = (Ok tt, snd (login username password (asked_credentials st))) /\
  tty_in (world (snd (login_required_rec depth st))) = rest.
Proof.
  intros Ht Hin Hl.
  rewrite login_required_rec_unfold, Ht, Hin.
  destruct (login_outcome (asked_credentials st) username password)
    as (_ & Hi & _).
  destruct (login username password (asked_credentials st)) as [res st2].
  cbn [fst snd] in *. subst res. split; [reflexivity|].
  cbn [snd]. rewrite Hi.
  cbn [asked_credentials read_line say world tty_in tl].
  rewrite Hin. reflexivity.
Qed.

(** X22.  A login that fails on the cookie has already put the new token
    in memory; when that token is true and the retry question is answered
    [y], the nested [login_required] finds a token and returns at once: no
    second request is sent, the session file is not written, and the
    client keeps the new token with its old [session_id]. *)
Theorem login_required_retry_after_cookie_failure (depth : nat) (st : State)
    (username password : string) (rest : list string)
    (r : response) (respond resp tok user id : pyval) :
  truthy (access_token (self st)) = false ->
  tty_in (world st) = username :: password :: "y" :: rest ->
  http (net_log (world st)) (login_request (self st) username password) = Ok r ->
  ok_status (status_code r) = true ->
  json_loads (text r) = Some respond ->
  getitem respond "response" = Ok resp ->
  getitem resp "access_token" = Ok tok ->
  getitem resp "user" = Ok user ->
  getitem user "id" = Ok id ->
  header_get (headers r) "Set-Cookie" = None ->
  truthy tok = true ->
  let out := login_required_rec (S depth) st in
  fst out = Ok tt /\
  net_log (world (snd out))
  = (net_log (world st) ++ [login_request (self st) username password])%list /\
  access_token (self (snd out)) = tok /\
  session_id (self (snd out)) = session_id (self st) /\
  fs_session (world (snd out)) = fs_session (world st) /\
  tty_in (world (snd out)) = rest.
Proof.
  intros Ht Hin Hr Hs Hj H1 H2 H3 H4 Hc Htok out. subst out.
  destruct st as [o [f l i t]]. cbn [self world tty_in net_log fs_session] in *.
  subst i. rewrite login_required_rec_unfold. cbn [self world tty_in].
  rewrite Ht.
  match goal with
  | |- context [login username password ?s] =>
      rewrite (login_cookie_failure s username password r
                 respond resp tok user id (KeyError "set-cookie")
                 Hr Hs Hj H1 H2 H3 H4)
        by (rewrite Hc; reflexivity)
  end.
  cbn [is_Exception world tty_in asked_credentials read_line say tl
       self fs_session net_log tty_out].
  cbn [String.eqb Ascii.eqb Bool.eqb].
  rewrite login_required_rec_valid by exact Htok.
  repeat split; reflexivity.
Qed.

End ManagerMore.

(** ** Further properties of the start-up *)

Section StartMore.

Context {env : Env}.

(** X23.  Without a usable session file, [__init__] is [login_required]
    and nothing else: when the file is missing, when its content does not
    decode, and when it decodes to a false value (an empty object or array,
    an empty string, zero, [false], [null]), no probe is sent and the state
    in which the login starts is the initial one. *)
Theorem init_without_usable_file (st : State) :
  fs_session (world st) = None \/
  (exists content, fs_session (world st) = Some content /\
     (json_loads content = None \/
      exists v, json_loads content = Some v /\ truthy v = false)) ->
  __init__ st = login_required st.
Proof.
  intros [Hf | (content & Hf & Hj)]; unfold __init__.
  - erewrite bind_Ok
      by (unfold path_exists_session, bind, get_world, ret; rewrite Hf;
          reflexivity).
    reflexivity.
  - erewrite bind_Ok
      by (unfold path_exists_session, bind, get_world, ret; rewrite Hf;
          reflexivity).
    cbv beta iota.
    destruct Hj as [Hj | (v & Hj & Hv)].
    + erewrite bind_Ok
        by (apply (load_session_undecodable st content); assumption).
      reflexivity.
    + assert (E : load_session st = (Ok v, st)).
      { unfold load_session.
        erewrite bind_Ok by (apply read_session_file_Some; exact Hf).
        rewrite Hj. unfold finally_return. destruct st as [o w].
        destruct v; try reflexivity.
        destruct d; [reflexivity | discriminate]. }
      erewrite bind_Ok by exact E. rewrite Hv. reflexivity.
Qed.

(** X24.  With a session file that holds the three keys and a probe
    answered as valid, [__init__] returns without asking anything: nothing
    is read from the terminal, the probe is the only request, it carries
    the credentials of the file, and the client holds the record of the
    file. *)
Theorem init_with_valid_session (st : State) (content : string)
    (d : list (string * pyval)) (a u s : pyval) (r : response) :
  fs_session (world st) = Some content ->
  json_loads content = Some (PDict d) ->
  dict_get d "access_token" = Some a ->
  dict_get d "user_id" = Some u ->
  dict_get d "session_id" = Some s ->
  let o1 := {| session_id := s; access_token := a;
               session := session (self st); user_id := u;
               timeout := timeout (self st) |} in
  http (net_log (world st)) (probe_request o1) = Ok r ->
  verdict r = true ->
  let out := __init__ st in
  fst out = Ok tt /\
  access_token (self (snd out)) = a /\
  user_id (self (snd out)) = u /\
  session_id (self (snd out)) = s /\
  tty_in (world (snd out)) = tty_in (world st) /\
  net_log (world (snd out)) = (net_log (world st) ++ [probe_request o1])%list /\
  fs_session (world (snd out)) = Some content.
Proof.
  intros Hf Hj Ha Hu Hs o1 Hr Hv out. subst out. unfold __init__.
  erewrite bind_Ok
    by (unfold path_exists_session, bind, get_world, ret; rewrite Hf;
        reflexivity).
  cbv beta iota.
  erewrite bind_Ok
    by (apply (load_session_complete st content d a u s); assumption).
  assert (Hd : truthy (PDict d) = true).
  { destruct d; [discriminate | reflexivity]. }
  rewrite Hd.
  set (st1 := {| self := _; world := world st |}).
  assert (Hr1 : http (net_log (world st1)) (probe_request (self st1)) = Ok r)
    by exact Hr.
  pose proof (check_expired_tty_in st1) as Hin.
  destruct (check_expired_answered st1 r Hr1)
    as (st' & E & Ht & Hu' & Hs' & _ & Hfs & Hl).
  rewrite E in Hin. cbn [snd] in Hin.
  erewrite bind_Ok by exact E.
  rewrite Hv in *. cbn [fst snd ret].
  rewrite Ht, Hu', Hs', Hin, Hl, Hfs. cbn [st1 self world].
  rewrite Hf. repeat split; reflexivity.
Qed.

End StartMore.

(** ** Further properties of the result envelope and the queries *)

Section QueriesMore.

Context {env : Env}.

(** X25.  [parse_result] raises [Pixiv_Get_Error] in exactly one
    situation: the body is JSON with a [status] that is not ['success'];
    the error then carries [r.url]. *)
Theorem parse_result_fetch_error_iff (r : response) (u : string) :
  parse_result r = Raise (Pixiv_Get_Error u) <->
  u = url r /\
  exists data status,
    json_loads (text r) = Some data /\
    getitem data "status" = Ok status /\
    status <> PStr "success".
Proof.
  split.
  - unfold parse_result.
    destruct (json_loads (text r)) as [data|]; [|discriminate].
    destruct (getitem data "status") as [status|e] eqn:Hs.
    + destruct (eq_str status "success") eqn:E.
      * destruct data; simpl; try discriminate.
        destruct (dict_get d "response"); discriminate.
      * intros H. inversion H. split; [reflexivity|].
        exists data, status. repeat split; trivial.
        intros ->. simpl in E. discriminate.
    + destruct data; simpl in Hs; try (inversion Hs; discriminate).
      destruct (dict_get d "status"); inversion Hs. discriminate.
  - intros (-> & data & status & Hj & Hs & Hne).
    exact (parse_result_failure r data status Hj Hs Hne).
Qed.

(** X26.  The other failures of [parse_result] are not fetch errors: a
    body that does not decode raises the decoding error, a JSON object
    without [status] raises [KeyError('status')], JSON that is not an
    object raises [TypeError], and a success without [response] raises
    [KeyError('response')]. *)
Theorem parse_result_malformed_body (r : response) :
  (json_loads (text r) = None -> parse_result r = Raise JSONDecodeError) /\
  (forall d, json_loads (text r) = Some (PDict d) ->
             dict_get d "status" = None ->
             parse_result r = Raise (KeyError "status")) /\
  (forall v, json_loads (text r) = Some v -> (forall d, v <> PDict d) ->
             parse_result r = Raise TypeError) /\
  (forall d, json_loads (text r) = Some (PDict d) ->
             dict_get d "status" = Some (PStr "success") ->
             dict_get d "response" = None ->
             parse_result r = Raise (KeyError "response")).
Proof.
  unfold parse_result. repeat split.
  - intros ->. reflexivity.
  - intros d -> Hs. simpl. rewrite Hs. reflexivity.
  - intros v -> Hv. destruct v; try reflexivity. exfalso. exact (Hv d eq_refl).
  - intros d -> Hs Hp. simpl. rewrite Hs. simpl. rewrite Hp. reflexivity.
Qed.

(** X27.  With a token in memory, [get_user_illustrations] sends exactly
    one request: a [GET] of [users/<str(user_id)>/works.json] whose
    parameters are the page (1 when omitted), the page size (9999 when
    omitted), both flags as [True] and the two size lists; it returns what
    [parse_result] makes of the answer, and an error of the transport goes
    through. *)
Theorem get_user_illustrations_request (user : pyval) (per_page page : option Z)
    (st : State) :
  truthy (access_token (self st)) = true ->
  let rq :=
    get_request (self st)
      ("https://public-api.secure.pixiv.net/v1/users/" ++ py_str user
       ++ "/works.json")
      (Some [("page", PInt (default 1 page));
             ("per_page", PInt (default 9999 per_page));
             ("include_stats", PBool true);
             ("include_sanity_level", PBool true);
             ("image_sizes", PStr "px_128x128,px_480mw,small,medium,large");
             ("profile_image_sizes", PStr "px_170x170,px_50x50")]) in
  let out := get_user_illustrations user per_page page st in
  net_log (world (snd out)) = (net_log (world st) ++ [rq])%list /\
  fst out = match http (net_log (world st)) rq with
            | Ok r => parse_result r
            | Raise e => Raise e
            end.
Proof.
  intros Ht rq out. subst rq out. unfold get_user_illustrations.
  erewrite bind_Ok by (apply login_required_valid; exact Ht).
  rewrite bind_request_GET.
  destruct (http _ _) as [r|e]; split; reflexivity.
Qed.

(** X28.  With a token in memory, [get_illustration] sends exactly one
    request: a [GET] of [works/<str(illustration_id)>.json] with the two
    size lists, [include_stats] as the string ['true'] and
    [include_sanity_level] as [True]; it returns what [parse_result] makes
    of the answer, and an error of the transport goes through. *)
Theorem get_illustration_request (illustration_id : pyval) (st : State) :
  truthy (access_token (self st)) = true ->
  let rq :=
    get_request (self st)
      ("https://public-api.secure.pixiv.net/v1/works/"
       ++ py_str illustration_id ++ ".json")
      (Some [("profile_image_sizes", PStr "px_170x170,px_50x50");
             ("image_sizes", PStr "px_128x128,px_480mw,small,medium,large");
             ("include_stats", PStr "true");
             ("include_sanity_level", PBool true)]) in
  let out := get_illustration illustration_id st in
  net_log (world (snd out)) = (net_log (world st) ++ [rq])%list /\
  fst out = match http (net_log (world st)) rq with
            | Ok r => parse_result r
            | Raise e => Raise e
            end.
Proof.
  intros Ht rq out. subst rq out. unfold get_illustration.
  erewrite bind_Ok by (apply login_required_valid; exact Ht).
  rewrite bind_request_GET.
  destruct (http _ _) as [r|e]; split; reflexivity.
Qed.

End QueriesMore.

(** ** Further properties of the cookie pattern *)

Lemma strip_prefix_Some (p s rest : string) :
  strip_prefix p s = Some rest -> s = p ++ rest.
Proof.
  revert s. induction p as [|a p IH]; intros s; simpl.
  - intros H. inversion H. reflexivity.
  - destruct s as [|b s]; [discriminate|].
    destruct (Ascii.eqb a b) eqn:E; [|discriminate].
    apply Ascii.eqb_eq in E. subst b. intros H. rewrite (IH s H). reflexivity.
Qed.

Lemma lazy_group_semicolon_Some (s g : string) :
  lazy_group_semicolon s = Some g ->
  (exists post, s = g ++ String semicolon post) /\
  (forall c, In c (list_ascii_of_string g) -> c <> semicolon /\ c <> newline).
Proof.
  revert g. induction s as [|c s IH]; intros g; simpl; [discriminate|].
  destruct (Ascii.eqb c semicolon) eqn:E1.
  - apply Ascii.eqb_eq in E1. subst c. intros H. inversion H. split.
    + exists s. reflexivity.
    + intros c [].
  - destruct (Ascii.eqb c newline) eqn:E2; [discriminate|].
    destruct (lazy_group_semicolon s) as [g'|]; [|discriminate].
    intros H. inversion H. subst g.
    destruct (IH g' eq_refl) as [[post Hs] Hclean]. split.
    + exists post. rewrite Hs. reflexivity.
    + intros c' [<- | Hin].
      * split; apply Ascii.eqb_neq; assumption.
      * apply Hclean. exact Hin.
Qed.

Lemma re_search_PHPSESSID_unfold (s : string) :
  re_search_PHPSESSID s
  = match match strip_prefix "PHPSESSID=" s with
          | Some rest => lazy_group_semicolon rest
          | None => None
          end with
    | Some g => Some g
    | None =>
        match s with
        | EmptyString => None
        | String _ s' => re_search_PHPSESSID s'
        end
    end.
Proof. destruct s; reflexivity. Qed.

(** X29.  What the search for [PHPSESSID=(.*?);] returns is cut out of the
    header: the header reads [... PHPSESSID=<value>; ...] around it, and
    the value holds neither a semicolon nor a line feed. *)
Theorem re_search_PHPSESSID_sound (s g : string) :
  re_search_PHPSESSID s = Some g ->
  (exists pre post, s = pre ++ "PHPSESSID=" ++ g ++ String semicolon post) /\
  (forall c, In c (list_ascii_of_string g) -> c <> semicolon /\ c <> newline).
Proof.
  induction s as [|c s IH]; rewrite re_search_PHPSESSID_unfold.
  - simpl. discriminate.
  - destruct (strip_prefix "PHPSESSID=" (String c s)) as [rest|] eqn:Hp.
    + destruct (lazy_group_semicolon rest) as [g'|] eqn:Hl.
      * intros H. inversion H. subst g'.
        destruct (lazy_group_semicolon_Some rest g Hl) as [[post Hr] Hclean].
        split; [|exact Hclean].
        exists "", post. rewrite (strip_prefix_Some _ _ _ Hp), Hr. reflexivity.
      * intros H. destruct (IH H) as [(pre & post & Hs) Hclean].
        split; [|exact Hclean].
        exists (String c pre), post. rewrite Hs. reflexivity.
    + intros H. destruct (IH H) as [(pre & post & Hs) Hclean].
      split; [|exact Hclean].
      exists (String c pre), post. rewrite Hs. reflexivity.
Qed.

(** X30.  The search finds a session cookie wherever it stands: a header
    that reads [PHPSESSID=<value>;] anywhere, with a value free of
    semicolons and line feeds, always yields a result. *)
Theorem re_search_PHPSESSID_complete (pre v post : string) :
  (forall c, In c (list_ascii_of_string v) -> c <> semicolon /\ c <> newline) ->
  exists g,
    re_search_PHPSESSID (pre ++ "PHPSESSID=" ++ v ++ String semicolon post)
    = Some g.
Proof.
  intros Hv. induction pre as [|c pre IH].
  - exists v. apply re_search_PHPSESSID_prefix. exact Hv.
  - destruct IH as [g Hg].
    change (String c pre ++ "PHPSESSID=" ++ v ++ String semicolon post)
      with (String c (pre ++ "PHPSESSID=" ++ v ++ String semicolon post)).
    rewrite re_search_PHPSESSID_unfold.
    destruct (match strip_prefix "PHPSESSID=" (String c _) with
              | Some rest => lazy_group_semicolon rest
              | None => None
              end) as [g'|].
    + exists g'. reflexivity.
    + exists g. exact Hg.
Qed.

(** ** The further properties at concrete inputs *)

Lemma load_session_undecodable_is_None_witness :
  fs_session (world (st_with_file truncated_file)) = Some truncated_file /\
  json_loads (Env := env_probe_ok) truncated_file = None /\
  load_session (env := env_probe_ok) (st_with_file truncated_file)
  = (Ok PNone, st_with_file truncated_file).
Proof.
  split; [reflexivity|]. split; [reflexivity|].
  apply (load_session_undecodable_is_None (env := env_probe_ok)
           (st_with_file truncated_file) truncated_file); reflexivity.
Defined.

Lemma load_session_takes_over_record_witness :
  json_loads (Env := env_probe_ok) full_file
  = Some (PDict [("session_id", PStr "abc123"); ("expires", PInt 3600);
                 ("user_id", PStr "42"); ("access_token", PStr "tok")]) /\
  self (snd (load_session (env := env_probe_ok) (st_with_file full_file)))
  = {| session_id := PStr "abc123"; access_token := PStr "tok";
       session := NoSession; user_id := PStr "42"; timeout := 10 |}.
Proof.
  split; [reflexivity|].
  rewrite (load_session_takes_over_record (env := env_probe_ok)
             (st_with_file full_file) full_file
             [("session_id", PStr "abc123"); ("expires", PInt 3600);
              ("user_id", PStr "42"); ("access_token", PStr "tok")]
             (PStr "tok") (PStr "42") (PStr "abc123")
             eq_refl eq_refl eq_refl eq_refl eq_refl).
  reflexivity.
Defined.

Lemma load_session_stops_at_missing_key_witness :
  json_loads (Env := env_probe_ok) partial_file
  = Some (PDict [("access_token", PStr "tok")]) /\
  load_session (env := env_probe_ok) (st_with_file partial_file)
  = (Ok (PDict [("access_token", PStr "tok")]),
     {| self := {| session_id := PNone; access_token := PStr "tok";
                   session := NoSession; user_id := PStr "";
                   timeout := 10 |};
        world := world (st_with_file partial_file) |}).
Proof.
  split; [reflexivity|].
  apply (load_session_stops_at_missing_key (env := env_probe_ok)
           (st_with_file partial_file) partial_file
           [("access_token", PStr "tok")] (PStr "tok"));
    reflexivity.
Defined.

Lemma load_session_not_an_object_witness :
  json_loads (Env := env_probe_ok) array_file = Some (PList [PInt 1; PInt 2]) /\
  load_session (env := env_probe_ok) (st_with_file array_file)
  = (Ok (PList [PInt 1; PInt 2]), st_with_file array_file).
Proof.
  split; [reflexivity|].
  apply (load_session_not_an_object (env := env_probe_ok)
           (st_with_file array_file) array_file (PList [PInt 1; PInt 2]));
    [reflexivity | reflexivity | intros d; discriminate].
Defined.

Lemma request_unknown_method_witness :
  "PUT" <> "GET" /\ "PUT" <> "POST" /\
  _request_pixiv (env := env_probe_ok) "PUT" probe_url None None None st_logged_in
  = (Raise (RuntimeError [PStr "Unknown Method:"; PStr "PUT"]),
     {| self := with_transport logged_in_client; world := world st_logged_in |}).
Proof.
  assert (H1 : "PUT" <> "GET") by discriminate.
  assert (H2 : "PUT" <> "POST") by discriminate.
  split; [exact H1|]. split; [exact H2|].
  exact (request_unknown_method (env := env_probe_ok) st_logged_in
           "PUT" probe_url None None None H1 H2).
Defined.

Lemma set_timeout_applies_to_next_request_witness :
  truthy (access_token (self st_logged_in)) = true /\
  exists rq : request,
    net_log (world (snd ((set_timeout 30 ;;
                          get_illustration (env := env_query_ok) (PInt 1))
                           st_logged_in)))
    = [rq] /\
    req_timeout rq = 30.
Proof.
  split; [reflexivity|].
  destruct (set_timeout_applies_to_next_request (env := env_query_ok)
              30 (PInt 1) st_logged_in eq_refl)
    as (_ & _ & _ & _ & rq & Hlog & Ht & _).
  exists rq. split; assumption.
Defined.

Lemma check_expired_transport_error_witness :
  http (Env := env_down) (net_log (world st_logged_in))
    (probe_request (env := env_down) (self st_logged_in))
  = Raise (TransportError "Connection refused") /\
  fst (check_expired (env := env_down) st_logged_in)
  = Raise (TransportError "Connection refused") /\
  access_token (self (snd (check_expired (env := env_down) st_logged_in)))
  = PStr "tok".
Proof.
  split; [reflexivity|].
  destruct (check_expired_transport_error (env := env_down) st_logged_in
              (TransportError "Connection refused") eq_refl)
    as (Hraise & Htoken & _).
  split; assumption.
Defined.

Lemma check_expired_valid_keeps_credentials_witness :
  fst (check_expired (env := env_probe_ok) st_logged_in) = Ok true /\
  access_token (self (snd (check_expired (env := env_probe_ok) st_logged_in)))
  = PStr "tok" /\
  session_id (self (snd (check_expired (env := env_probe_ok) st_logged_in)))
  = PStr "abc123".
Proof.
  split; [reflexivity|].
  destruct (check_expired_valid_keeps_credentials (env := env_probe_ok)
              st_logged_in eq_refl) as (Ha & _ & Hs & _).
  split; assumption.
Defined.

Lemma expired_session_sends_no_credentials_witness :
  fst (check_expired (env := env_forbidden) st_logged_in) = Ok false /\
  pixiv_headers (env := env_forbidden)
    (self (snd (check_expired (env := env_forbidden) st_logged_in))) None
  = fixed_headers.
Proof.
  split; [reflexivity|].
  apply (expired_session_sends_no_credentials (env := env_forbidden)
           st_logged_in).
  reflexivity.
Defined.

Lemma login_assigns_and_persists_witness :
  re_search_PHPSESSID "PHPSESSID=abc123; Path=/" = Some "abc123" /\
  self (snd (login (env := env_login_ok) "name" "secret" st_fresh))
  = {| session_id := PStr "abc123"; access_token := PStr "tok";
       session := Session; user_id := PStr "42"; timeout := 10 |}.
Proof.
  split; [reflexivity|].
  rewrite (login_assigns_and_persists (env := env_login_ok) st_fresh
             "name" "secret" login_ok_response
             (PDict [("response",
                      PDict [("access_token", PStr "tok");
                             ("user", PDict [("id", PInt 42)])])])
             (PDict [("access_token", PStr "tok");
                     ("user", PDict [("id", PInt 42)])])
             (PStr "tok") (PDict [("id", PInt 42)]) (PInt 42)
             "PHPSESSID=abc123; Path=/" "abc123"
             eq_refl eq_refl eq_refl eq_refl eq_refl eq_refl eq_refl
             eq_refl eq_refl).
  reflexivity.
Defined.

Lemma login_unreadable_cookie_witness :
  header_get (headers login_other_cookie_response) "Set-Cookie"
  = Some "device_token=xyz; Path=/" /\
  re_search_PHPSESSID "device_token=xyz; Path=/" = None /\
  fst (login (env := env_other_cookie) "name" "secret" st_fresh)
  = Raise AttributeError /\
  access_token (self (snd (login (env := env_other_cookie) "name" "secret"
                             st_fresh)))
  = PStr "tok" /\
  fs_session (world (snd (login (env := env_other_cookie) "name" "secret"
                            st_fresh)))
  = None.
Proof.
  split; [reflexivity|]. split; [reflexivity|].
  destruct (login_unreadable_cookie (env := env_other_cookie) st_fresh
              "name" "secret" login_other_cookie_response
              (PDict [("response",
                       PDict [("access_token", PStr "tok");
                              ("user", PDict [("id", PInt 42)])])])
              (PDict [("access_token", PStr "tok");
                      ("user", PDict [("id", PInt 42)])])
              (PStr "tok") (PDict [("id", PInt 42)]) (PInt 42)
              eq_refl eq_refl eq_refl eq_refl eq_refl eq_refl eq_refl
              eq_refl)
    as (Hraise & Htoken & _ & _ & Hfile).
  repeat split; assumption.
Defined.

Lemma login_undecodable_body_witness :
  json_loads (Env := env_html) (text login_html_response) = None /\
  login (env := env_html) "name" "secret" st_fresh
  = (Raise JSONDecodeError,
     after_send st_fresh
       (login_request (env := env_html) (self st_fresh) "name" "secret")).
Proof.
  split; [reflexivity|].
  apply (login_undecodable_body (env := env_html) st_fresh "name" "secret"
           login_html_response); reflexivity.
Defined.


Lemma login_required_declined_retry_witness :
  truthy (access_token (self (st_typing ["name"; "secret"; "n"; "more"])))
  = false /\
  "n" <> "y" /\
  fst (login_required_rec (env := env_forbidden) 3
         (st_typing ["name"; "secret"; "n"; "more"]))
  = Raise SystemExit /\
  tty_in (world (snd (login_required_rec (env := env_forbidden) 3
                        (st_typing ["name"; "secret"; "n"; "more"]))))
  = ["more"].
Proof.
  assert (Hn : "n" <> "y") by discriminate.
  split; [reflexivity|]. split; [exact Hn|].
  destruct (login_required_declined_retry (env := env_forbidden) 3
              (st_typing ["name"; "secret"; "n"; "more"])
              "name" "secret" "n" ["more"] forbidden_response
              eq_refl eq_refl eq_refl eq_refl Hn)
    as (Hraise & Hin & _).
  split; assumption.
Defined.

Lemma login_required_first_login_witness :
  fst (login (env := env_login_ok) "name" "secret"
         (asked_credentials (st_typing ["name"; "secret"; "more"])))
  = Ok PNone /\
  tty_in (world (snd (login_required_rec (env := env_login_ok) 3
                        (st_typing ["name"; "secret"; "more"]))))
  = ["more"].
Proof.
  split; [reflexivity|].
  apply (login_required_first_login (env := env_login_ok) 3
           (st_typing ["name"; "secret"; "more"]) "name" "secret" ["more"]
           PNone);
    reflexivity.
Defined.

Lemma login_required_retry_after_cookie_failure_witness :
  header_get (headers login_no_cookie_response) "Set-Cookie" = None /\
  truthy (PStr "tok") = true /\
  fst (login_required_rec (env := env_no_cookie) 1
         (st_typing ["name"; "secret"; "y"]))
  = Ok tt /\
  map req_method
    (net_log (world (snd (login_required_rec (env := env_no_cookie) 1
                            (st_typing ["name"; "secret"; "y"])))))
  = ["POST"] /\
  fs_session (world (snd (login_required_rec (env := env_no_cookie) 1
                            (st_typing ["name"; "secret"; "y"]))))
  = None.
Proof.
  split; [reflexivity|]. split; [reflexivity|].
  destruct (login_required_retry_after_cookie_failure (env := env_no_cookie)
              0 (st_typing ["name"; "secret"; "y"]) "name" "secret" []
              login_no_cookie_response
              (PDict [("response",
                       PDict [("access_token", PStr "tok");
                              ("user", PDict [("id", PInt 42)])])])
              (PDict [("access_token", PStr "tok");
                      ("user", PDict [("id", PInt 42)])])
              (PStr "tok") (PDict [("id", PInt 42)]) (PInt 42)
              eq_refl eq_refl eq_refl eq_refl eq_refl eq_refl eq_refl
              eq_refl eq_refl eq_refl eq_refl)
    as (Hok & Hlog & _ & _ & Hfile & _).
  split; [exact Hok|]. split; [rewrite Hlog; reflexivity | exact Hfile].
Defined.

Lemma init_without_usable_file_witness :
  json_loads (Env := env_forbidden) truncated_file = None /\
  __init__ (env := env_forbidden) (st_with_file truncated_file)
  = login_required (env := env_forbidden) (st_with_file truncated_file).
Proof.
  split; [reflexivity|].
  apply (init_without_usable_file (env := env_forbidden)
           (st_with_file truncated_file)).
  right. exists truncated_file. split; [reflexivity|]. left. reflexivity.
Defined.

Lemma init_with_valid_session_witness :
  verdict (env := env_probe_ok) probe_ok_response = true /\
  fst (__init__ (env := env_probe_ok) (st_with_file full_file)) = Ok tt /\
  access_token (self (snd (__init__ (env := env_probe_ok)
                             (st_with_file full_file))))
  = PStr "tok" /\
  map req_method
    (net_log (world (snd (__init__ (env := env_probe_ok)
                            (st_with_file full_file)))))
  = ["GET"].
Proof.
  split; [reflexivity|].
  destruct (init_with_valid_session (env := env_probe_ok)
              (st_with_file full_file) full_file
              [("session_id", PStr "abc123"); ("expires", PInt 3600);
               ("user_id", PStr "42"); ("access_token", PStr "tok")]
              (PStr "tok") (PStr "42") (PStr "abc123") probe_ok_response
              eq_refl eq_refl eq_refl eq_refl eq_refl eq_refl eq_refl)
    as (Hok & Ha & _ & _ & _ & Hlog & _).
  split; [exact Hok|]. split; [exact Ha|]. rewrite Hlog. reflexivity.
Defined.

Lemma get_user_illustrations_request_witness :
  truthy (access_token (self st_logged_in)) = true /\
  fst (get_user_illustrations (env := env_query_ok) (PInt 7) None None
         st_logged_in)
  = Ok (PList [PDict [("id", PInt 1)]]) /\
  map req_url
    (net_log (world (snd (get_user_illustrations (env := env_query_ok)
                            (PInt 7) None None st_logged_in))))
  = ["https://public-api.secure.pixiv.net/v1/users/7/works.json"].
Proof.
  split; [reflexivity|].
  destruct (get_user_illustrations_request (env := env_query_ok)
              (PInt 7) None None st_logged_in eq_refl) as (Hlog & Hres).
  split; [rewrite Hres; reflexivity | rewrite Hlog; reflexivity].
Defined.

Lemma get_illustration_request_witness :
  truthy (access_token (self st_logged_in)) = true /\
  fst (get_illustration (env := env_query_ok) (PInt 1) st_logged_in)
  = Ok (PList [PDict [("id", PInt 1)]]) /\
  map req_url
    (net_log (world (snd (get_illustration (env := env_query_ok) (PInt 1)
                            st_logged_in))))
  = ["https://public-api.secure.pixiv.net/v1/works/1.json"].
Proof.
  split; [reflexivity|].
  destruct (get_illustration_request (env := env_query_ok)
              (PInt 1) st_logged_in eq_refl) as (Hlog & Hres).
  split; [rewrite Hres; reflexivity | rewrite Hlog; reflexivity].
Defined.

Lemma re_search_PHPSESSID_sound_witness :
  re_search_PHPSESSID "lang=en; PHPSESSID=abc123; Path=/" = Some "abc123" /\
  exists pre post,
    "lang=en; PHPSESSID=abc123; Path=/"
    = pre ++ "PHPSESSID=" ++ "abc123" ++ String semicolon post.
Proof.
  split; [reflexivity|].
  exact (proj1 (re_search_PHPSESSID_sound
                  "lang=en; PHPSESSID=abc123; Path=/" "abc123" eq_refl)).
Defined.

Lemma re_search_PHPSESSID_complete_witness :
  (forall c, In c (list_ascii_of_string "abc123") ->
             c <> semicolon /\ c <> newline) /\
  exists g,
    re_search_PHPSESSID
      ("lang=en; " ++ "PHPSESSID=" ++ "abc123" ++ String semicolon " Path=/")
    = Some g.
Proof.
  assert (H : forall c, In c (list_ascii_of_string "abc123") ->
                        c <> semicolon /\ c <> newline).
  { intros c Hc. simpl in Hc.
    repeat (destruct Hc as [<- | Hc]; [split; discriminate|]).
    contradiction. }
  split; [exact H|].
  exact (re_search_PHPSESSID_complete "lang=en; " "abc123" " Path=/" H).
Defined.
